(** * font-cut: a shallow embedding of [main.py] and its specification

    The program is a thin driver around the fontTools library: it validates
    a font file, unions a few fixed character sets into the text to keep,
    calls the subsetter and prints sizes.  Python values are modelled as
    follows:

    - [str] is a list of Unicode code points ([pystr]); a one-character
      string is its code point and [sorted] compares code points;
    - [set] is stdpp's [gset];
    - [int] is [Z];
    - a [float] is the exact dyadic value of the IEEE double it denotes
      ([pyfloat]), every operation rounding to nearest, ties to even;
    - whatever the program asks of the operating system and of fontTools is
      an operation of the [Platform] interface acting on an abstract world,
      and a run is a function from a state (world and trace of calls) to an
      outcome and a state. *)

From Stdlib Require Import ZArith NArith Ascii String List Lia DecimalString.
From stdpp Require Import base decidable numbers option list sorting gmap.

Local Open Scope Z_scope.

(** ** Python strings *)

Module PyStr.

(** A Python [str]: the sequence of its code points. *)
Abbreviation pystr := (list N).

(** Decoding of the UTF-8 bytes of a literal of this file into code
    points, so that the literals below read like those of the source. *)
Fixpoint utf8_decode (bs : list N) : list N :=
  match bs with
  | [] => []
  | b0 :: r0 =>
      if (b0 <? 0x80)%N then b0 :: utf8_decode r0
      else if (b0 <? 0xE0)%N then
        match r0 with
        | b1 :: r1 =>
            N.lor (N.shiftl (N.land b0 0x1F) 6) (N.land b1 0x3F)
              :: utf8_decode r1
        | _ => []
        end
      else if (b0 <? 0xF0)%N then
        match r0 with
        | b1 :: b2 :: r2 =>
            N.lor (N.shiftl (N.land b0 0x0F) 12)
              (N.lor (N.shiftl (N.land b1 0x3F) 6) (N.land b2 0x3F))
              :: utf8_decode r2
        | _ => []
        end
      else
        match r0 with
        | b1 :: b2 :: b3 :: r3 =>
            N.lor (N.shiftl (N.land b0 0x07) 18)
              (N.lor (N.shiftl (N.land b1 0x3F) 12)
                 (N.lor (N.shiftl (N.land b2 0x3F) 6) (N.land b3 0x3F)))
              :: utf8_decode r3
        | _ => []
        end
  end.

Definition of_string (s : string) : pystr :=
  utf8_decode (map N_of_ascii (list_ascii_of_string s)).

(** [str(n)] for an [int]. *)
Definition str_int (n : Z) : pystr :=
  of_string (NilZero.string_of_int (Z.to_int n)).

(** [s * n], the repetition of a string. *)
Definition str_mul (s : pystr) (n : nat) : pystr := concat (replicate n s).

End PyStr.
Import PyStr.

Notation "'u' s" := (of_string s%string) (at level 1, s at level 0, only parsing).

(** ** Python floats

    A finite double is kept as the pair [m], [e] of its exact value
    [m * 2^e].  Signed zeros are not distinguished: the program never prints
    a zero it obtained from a negative operand. *)

Inductive pyfloat :=
| Finite (m e : Z)
| Infinity (negative : bool)
| NaN.

(** [num / den] rounded to the nearest integer, ties to even ([0 < den]). *)
Definition round_half_even (num den : Z) : Z :=
  let q := num / den in
  let r := num mod den in
  if 2 * r <? den then q
  else if den <? 2 * r then q + 1
  else if Z.even q then q else q + 1.

(** The double nearest to the rational [num / den] ([0 < den]), ties to
    even: 53 significant bits, least exponent -1074, infinite from 2^1024. *)
Definition round_double (num den : Z) : pyfloat :=
  if num =? 0 then Finite 0 0
  else
    let a := Z.abs num in
    let d := Z.log2 a - Z.log2 den in
    let ex := if a * 2 ^ Z.max 0 (- d) <? den * 2 ^ Z.max 0 d then d - 1 else d in
    let e := Z.max (ex - 52) (-1074) in
    let m := round_half_even (a * 2 ^ Z.max 0 (- e)) (den * 2 ^ Z.max 0 e) in
    if (0 <=? e) && (2 ^ 1024 <=? m * 2 ^ e) then Infinity (num <? 0)
    else Finite (Z.sgn num * m) e.

(** Numerator and denominator of the exact value of a finite double. *)
Definition float_num (m e : Z) : Z := m * 2 ^ Z.max 0 e.
Definition float_den (e : Z) : Z := 2 ^ Z.max 0 (- e).

(** [float(n)] for the small integer constants of the program. *)
Definition float_of_int (n : Z) : pyfloat := round_double n 1.

(** [x - y] on floats. *)
Definition float_sub (x y : pyfloat) : pyfloat :=
  match x, y with
  | Finite m1 e1, Finite m2 e2 =>
      round_double
        (float_num m1 e1 * float_den e2 - float_num m2 e2 * float_den e1)
        (float_den e1 * float_den e2)
  | Finite _ _, Infinity s => Infinity (negb s)
  | Infinity s, Finite _ _ => Infinity s
  | Infinity s1, Infinity s2 => if Bool.eqb s1 s2 then NaN else Infinity s1
  | _, _ => NaN
  end.

(** [x * y] on floats. *)
Definition float_mul (x y : pyfloat) : pyfloat :=
  match x, y with
  | Finite m1 e1, Finite m2 e2 =>
      round_double (float_num m1 e1 * float_num m2 e2)
        (float_den e1 * float_den e2)
  | Finite m _, Infinity s | Infinity s, Finite m _ =>
      if m =? 0 then NaN else Infinity (xorb s (m <? 0))
  | Infinity s1, Infinity s2 => Infinity (xorb s1 s2)
  | _, _ => NaN
  end.

(** [f"{x:.1f}"]: the exact value rounded to one decimal, ties to even. *)
Definition format_1f (x : pyfloat) : pystr :=
  match x with
  | Finite m e =>
      let t := round_half_even (10 * float_num (Z.abs m) e) (float_den e) in
      (if m <? 0 then u"-" else []) ++
      str_int (t / 10) ++ u"." ++ str_int (t mod 10)
  | Infinity s => if s then u"-inf" else u"inf"
  | NaN => u"nan"
  end.

(** ** Exceptions and outcomes *)

(** The classes of the exceptions the program raises itself, and [Foreign]
    for an exception that comes out of a call of the platform (fontTools,
    the operating system, the console), kept with the name of its class.
    All of them derive from [Exception]. *)
Inductive exn_class :=
| FileNotFoundError
| ValueError
| RuntimeError
| ZeroDivisionError
| OverflowError
| Foreign (class_name : pystr).

(** An exception object: its class and [str(e)]. *)
Record exn := Exn { exn_type : exn_class; exn_str : pystr }.

(** How a call ends: it returns, it raises an [Exception], or the
    interpreter exits ([sys.exit], which [except Exception] lets pass).
    Signals that arrive from outside a call ([KeyboardInterrupt]) are not
    part of the model. *)
Inductive outcome (A : Type) :=
| Return (a : A)
| Raise (e : exn)
| Exit (code : Z).
Arguments Return {A} a.
Arguments Raise {A} e.
Arguments Exit {A} code.

(** What a call of the platform answers. *)
Inductive answer (A : Type) :=
| Done (a : A)
| Failed (class_name : pystr) (message : pystr).
Arguments Done {A} a.
Arguments Failed {A} class_name message.

(** [a / b] on ints: the correctly rounded quotient. *)
Definition truediv (a b : Z) : outcome pyfloat :=
  if b =? 0 then Raise (Exn ZeroDivisionError (u"division by zero"))
  else
    match round_double (a * Z.sgn b) (Z.abs b) with
    | Infinity _ =>
        Raise (Exn OverflowError
                 (u"integer division result too large for a float"))
    | x => Return x
    end.

(** ** Configuration (lines 20-34 of main.py) *)

Definition KEEP_TEXT : pystr := u"滴天髓".
Definition INPUT_FONT : pystr := u"jhlst.ttf".
Definition OUTPUT_FONT : pystr := u"jhlst_sub.ttf".
Definition KEEP_BASIC_LATIN : bool := false.
Definition KEEP_NUMBERS : bool := false.
Definition KEEP_PUNCTUATION : bool := false.

(** ** The character-set preparer *)

(** The literal of line 95.  Its third character is the ASCII double quote
    (U+0022) and its eighth the apostrophe (U+0027), written here by their
    code points. *)
Definition BASIC_LATIN : pystr :=
  u" !" ++ [34%N] ++ u"#$%&" ++ [39%N] ++ u"()*+,-./:;<=>?@[\]^_`{|}~".

(** The literal of line 98. *)
Definition NUMBERS : pystr := u"0123456789".

(** The literal of line 102.  In the source it is two adjacent literals,
    which Python concatenates: the first ends in two ASCII double quotes
    and the apostrophes between the two are their delimiters, not
    characters. *)
Definition PUNCTUATION : pystr :=
  (u"。，、；：？！" ++ [34%N; 34%N]) ++ u"【】《》（）·—…".

(** [sorted(s)] for a set of one-character strings: ascending code points. *)
Definition sorted (s : gset N) : list N := merge_sort N.le (elements s).

(** [FontSubsetter.prepare_text].  [set(text)] is [list_to_set text],
    [unique_chars.update(lit)] is the union with the characters of [lit],
    and [''.join] of one-character strings is the list of their code
    points.  (The Python defaults of the three flags are [True]; every call
    of the program passes them.) *)
Definition prepare_text (text : pystr)
    (keep_basic_latin keep_numbers keep_punctuation : bool) : pystr :=
  let unique_chars : gset N := list_to_set text in
  let unique_chars :=
    if keep_basic_latin then unique_chars ∪ list_to_set BASIC_LATIN
    else unique_chars in
  let unique_chars :=
    if keep_numbers then unique_chars ∪ list_to_set NUMBERS
    else unique_chars in
  let unique_chars :=
    if keep_punctuation then unique_chars ∪ list_to_set PUNCTUATION
    else unique_chars in
  sorted unique_chars.

(** The supplementary characters that the three flags select. *)
Definition supplement (keep_basic_latin keep_numbers keep_punctuation : bool)
    : gset N :=
  (if keep_basic_latin then list_to_set BASIC_LATIN else ∅) ∪
  (if keep_numbers then list_to_set NUMBERS else ∅) ∪
  (if keep_punctuation then list_to_set PUNCTUATION else ∅).

(** The CJK and full-width marks of the literal of line 102. *)
Definition CJK_MARKS : pystr := u"。，、；：？！【】《》（）·—…".


(** [FontSubsetter.format_file_size] (lines 133-140). *)
Definition format_file_size (size_bytes : Z) : outcome pystr :=
  if size_bytes <? 1024 then Return (str_int size_bytes ++ u" B")
  else if size_bytes <? 1024 * 1024 then
    match truediv size_bytes 1024 with
    | Return x => Return (format_1f x ++ u" KB")
    | Raise e => Raise e
    | Exit c => Exit c
    end
  else
    match truediv size_bytes (1024 * 1024) with
    | Return x => Return (format_1f x ++ u" MB")
    | Raise e => Raise e
    | Exit c => Exit c
    end.

(** ** The platform: operating system, console and fontTools

    Every operation takes the world and answers with a new one: a file may
    appear, change or vanish between two calls, and a font object is
    mutated in place by the subsetter. *)

Class Platform := {
  World : Type;
  (** a [fontTools.ttLib.TTFont] object *)
  TTFont : Type;
  (** a [fontTools.subset.Subsetter] object *)
  Subsetter : Type;
  (** a record of the name table *)
  NameRecord : Type;
  (** [Path(p).suffix] *)
  Path_suffix : pystr → pystr;
  (** [s.lower()] *)
  str_lower : pystr → pystr;
  (** [os.path.exists(p)], which does not raise on a string *)
  os_path_exists : pystr → World → bool * World;
  (** [os.path.getsize(p)] *)
  os_path_getsize : pystr → World → answer Z * World;
  (** [os.path.abspath(p)] *)
  os_path_abspath : pystr → World → answer pystr * World;
  (** [print(line)] *)
  console_print : pystr → World → answer unit * World;
  (** [TTFont(p)]: opens and parses the file *)
  TTFont_open : pystr → World → answer TTFont * World;
  (** [font['name'].names] *)
  TTFont_name_names : TTFont → World → answer (list NameRecord) * World;
  (** [record.nameID] *)
  nameID : NameRecord → Z;
  (** [record.toUnicode()] *)
  toUnicode : NameRecord → World → answer pystr * World;
  (** [font.getBestCmap()]: [None] or a dict from code points to glyph names *)
  TTFont_getBestCmap : TTFont → World → answer (option (gmap N pystr)) * World;
  (** [font.save(p)] *)
  TTFont_save : TTFont → pystr → World → answer unit * World;
  (** [font.close()] *)
  TTFont_close : TTFont → World → answer unit * World;
  (** [Subsetter()] *)
  Subsetter_new : World → answer Subsetter * World;
  (** [subsetter.populate(text=text)] *)
  Subsetter_populate : Subsetter → pystr → World → answer unit * World;
  (** [subsetter.subset(font)] *)
  Subsetter_subset : Subsetter → TTFont → World → answer unit * World
}.

(** The calls a run makes to the platform, in order. *)
Inductive call :=
| call_exists (path : pystr)
| call_getsize (path : pystr)
| call_abspath (path : pystr)
| call_print (line : pystr)
| call_TTFont (path : pystr)
| call_names
| call_toUnicode
| call_getBestCmap
| call_save (path : pystr)
| call_close
| call_Subsetter
| call_populate (text : pystr)
| call_subset.

Section Program.
Context `{Platform}.

Record state := State { world : World; trace : list call }.

(** A computation of the program. *)
Definition M (A : Type) : Type := state → outcome A * state.

#[export] Instance M_ret : MRet M := λ A a st, (Return a, st).

#[export] Instance M_bind : MBind M := λ A B k m st,
  match m st with
  | (Return a, st') => k a st'
  | (Raise e, st') => (Raise e, st')
  | (Exit c, st') => (Exit c, st')
  end.

(** [raise e] *)
Definition raise {A} (e : exn) : M A := λ st, (Raise e, st).

(** [sys.exit(code)] *)
Definition sys_exit {A} (code : Z) : M A := λ st, (Exit code, st).

(** [try: body  except Exception as e: handler e] *)
Definition try_except {A} (body : M A) (handler : exn → M A) : M A := λ st,
  match body st with
  | (Raise e, st') => handler e st'
  | r => r
  end.

(** A value or exception of a pure computation, inside [M]. *)
Definition lift {A} (o : outcome A) : M A := λ st, (o, st).

(** A call of the platform: it is recorded in the trace and a failure is
    raised as a [Foreign] exception. *)
Definition platform {A} (c : call) (op : World → answer A * World) : M A := λ st,
  let '(r, w) := op (world st) in
  let st' := State w (trace st ++ [c]) in
  match r with
  | Done a => (Return a, st')
  | Failed cls msg => (Raise (Exn (Foreign cls) msg), st')
  end.

Definition exists_ (path : pystr) : M bool :=
  platform (call_exists path)
    (λ w, let '(b, w') := os_path_exists path w in (Done b, w')).
Definition getsize (path : pystr) : M Z :=
  platform (call_getsize path) (os_path_getsize path).
Definition abspath (path : pystr) : M pystr :=
  platform (call_abspath path) (os_path_abspath path).
Definition print (line : pystr) : M unit :=
  platform (call_print line) (console_print line).
Definition open_font (path : pystr) : M TTFont :=
  platform (call_TTFont path) (TTFont_open path).
Definition names (font : TTFont) : M (list NameRecord) :=
  platform call_names (TTFont_name_names font).
Definition to_unicode (record : NameRecord) : M pystr :=
  platform call_toUnicode (toUnicode record).
Definition getBestCmap (font : TTFont) : M (option (gmap N pystr)) :=
  platform call_getBestCmap (TTFont_getBestCmap font).
Definition save (font : TTFont) (path : pystr) : M unit :=
  platform (call_save path) (TTFont_save font path).
Definition close (font : TTFont) : M unit :=
  platform call_close (TTFont_close font).
Definition new_subsetter : M Subsetter :=
  platform call_Subsetter Subsetter_new.
Definition populate (subsetter : Subsetter) (text : pystr) : M unit :=
  platform (call_populate text) (Subsetter_populate subsetter text).
Definition subset (subsetter : Subsetter) (font : TTFont) : M unit :=
  platform call_subset (Subsetter_subset subsetter font).

(** ** FontSubsetter *)

(** [self.supported_formats], set by [__init__] and never changed. *)
Definition supported_formats : list pystr :=
  [u".ttf"; u".otf"; u".woff"; u".woff2"].

(** The three messages of the validation and the one of the subsetter. *)
Definition msg_not_found (font_path : pystr) : pystr :=
  u"字体文件不存在: " ++ font_path.
Definition msg_unsupported (file_ext : pystr) : pystr :=
  u"不支持的字体格式: " ++ file_ext.
Definition msg_invalid (e : exn) : pystr :=
  u"无效的字体文件: " ++ exn_str e.
Definition msg_subset_failed (e : exn) : pystr :=
  u"字体裁剪失败: " ++ exn_str e.

(** The body of the [try] of [validate_font_file] (lines 51-53). *)
Definition validate_font_file_try (font_path : pystr) : M bool :=
  font ← open_font font_path;
  _ ← close font;
  mret true.

(** [FontSubsetter.validate_font_file] (lines 41-55). *)
Definition validate_font_file (font_path : pystr) : M bool :=
  found ← exists_ font_path;
  if negb found then raise (Exn FileNotFoundError (msg_not_found font_path))
  else
    let file_ext := str_lower (Path_suffix font_path) in
    if negb (bool_decide (file_ext ∈ supported_formats))
    then raise (Exn ValueError (msg_unsupported file_ext))
    else
      try_except (validate_font_file_try font_path)
        (λ e, raise (Exn ValueError (msg_invalid e))).

(** The dict that [get_font_info] returns. *)
Record font_info := FontInfo {
  info_name : pystr;
  info_char_count : Z;
  info_file_size : Z
}.

Definition UNKNOWN_INFO : font_info := FontInfo (u"Unknown") 0 0.

(** The loop of lines 65-68: the first record whose [nameID] is 1 gives the
    name, and the loop stops there. *)
Fixpoint family_name (records : list NameRecord) (font_name : pystr) : M pystr :=
  match records with
  | [] => mret font_name
  | record :: records' =>
      if nameID record =? 1 then to_unicode record
      else family_name records' font_name
  end.

(** [len(cmap) if cmap else 0]: [None] and the empty dict are false. *)
Definition cmap_len (cmap : option (gmap N pystr)) : Z :=
  match cmap with
  | Some d => if bool_decide (d = ∅) then 0 else Z.of_nat (size d)
  | None => 0
  end.

(** The body of the [try] of [get_font_info] (lines 60-83). *)
Definition get_font_info_try (font_path : pystr) : M font_info :=
  font ← open_font font_path;
  records ← names font;
  font_name ← family_name records (u"Unknown");
  cmap ← getBestCmap font;
  let char_count := cmap_len cmap in
  file_size ← getsize font_path;
  _ ← close font;
  mret (FontInfo font_name char_count file_size).

(** [FontSubsetter.get_font_info] (lines 57-85). *)
Definition get_font_info (font_path : pystr) : M font_info :=
  try_except (get_font_info_try font_path) (λ e, mret UNKNOWN_INFO).

(** The body of the [try] of [subset_font] (lines 113-129). *)
Definition subset_font_try (input_path output_path text : pystr) : M bool :=
  font ← open_font input_path;
  subsetter ← new_subsetter;
  _ ← populate subsetter text;
  _ ← subset subsetter font;
  _ ← save font output_path;
  _ ← close font;
  mret true.

(** [FontSubsetter.subset_font] (lines 106-131). *)
Definition subset_font (input_path output_path text : pystr) : M bool :=
  _ ← validate_font_file input_path;
  try_except (subset_font_try input_path output_path text)
    (λ e, raise (Exn RuntimeError (msg_subset_failed e))).

(** ** The driver *)

(** Lines 192-195 of [main]: the size reduction, computed and printed only
    when the original size is positive. *)
Definition report_size_reduction (original_info subset_info : font_info) : M unit :=
  if info_file_size original_info >? 0 then
    ratio ← lift (truediv (info_file_size subset_info) (info_file_size original_info));
    let compression_ratio :=
      float_mul (float_sub (float_of_int 1) ratio) (float_of_int 100) in
    print (u"  大小减少: " ++ format_1f compression_ratio ++ u"%")
  else mret tt.

(** Lines 183-201 of [main]: the report after the subsetting. *)
Definition report_result (original_info : font_info) : M unit :=
  written ← exists_ OUTPUT_FONT;
  if (written : bool) then
    subset_info ← get_font_info OUTPUT_FONT;
    _ ← print (u"✅ 字体裁剪完成!");
    _ ← print [];
    _ ← print (u"裁剪后字体信息:");
    _ ← print (u"  文件: " ++ OUTPUT_FONT);
    size_text ← lift (format_file_size (info_file_size subset_info));
    _ ← print (u"  大小: " ++ size_text);
    _ ← print (u"  字符数: " ++ str_int (info_char_count subset_info));
    _ ← report_size_reduction original_info subset_info;
    _ ← print [];
    _ ← print (u"🎉 任务完成! 你可以在以下位置找到裁剪后的字体:");
    where_ ← abspath OUTPUT_FONT;
    print (u"   " ++ where_)
  else print (u"❌ 字体裁剪失败").

(** The body of the [try] of [main] (lines 147-201).  The early [return]
    of line 154 is the first branch. *)
Definition main_try : M unit :=
  _ ← print (u"🔤 TTF 字体裁剪工具");
  _ ← print (str_mul (u"=") 50);
  found ← exists_ INPUT_FONT;
  if negb found then
    _ ← print (u"❌ 输入字体文件不存在: " ++ INPUT_FONT);
    print (u"请修改脚本中的 INPUT_FONT 变量为正确的文件路径")
  else
    let final_text :=
      prepare_text KEEP_TEXT KEEP_BASIC_LATIN KEEP_NUMBERS KEEP_PUNCTUATION in
    _ ← print (u"📁 输入文件: " ++ INPUT_FONT);
    _ ← print (u"📁 输出文件: " ++ OUTPUT_FONT);
    _ ← print (u"📝 要保留的字符数: " ++ str_int (Z.of_nat (length final_text)));
    _ ← print (u"📝 字符预览: " ++ take 50 final_text ++
               (if Z.of_nat (length final_text) >? 50 then u"..." else []));
    _ ← print [];
    original_info ← get_font_info INPUT_FONT;
    _ ← print (u"原始字体信息:");
    _ ← print (u"  名称: " ++ info_name original_info);
    size_text ← lift (format_file_size (info_file_size original_info));
    _ ← print (u"  大小: " ++ size_text);
    _ ← print (u"  字符数: " ++ str_int (info_char_count original_info));
    _ ← print [];
    _ ← print (u"⏳ 正在裁剪字体...");
    _ ← subset_font INPUT_FONT OUTPUT_FONT final_text;
    report_result original_info.

(** [main] (lines 143-205): every [Exception] of the body is printed and
    the interpreter exits with status 1. *)
Definition main : M unit :=
  try_except main_try
    (λ e, _ ← print (u"❌ 错误: " ++ exn_str e); sys_exit 1).

End Program.

(** ** A small platform to run the program on

    An in-memory file system whose files have a size and, when they are
    fonts, a name table and the code points they map; font and subsetter
    objects live in a store and are referred to by their index. *)

Module Demo.

Record font_data := FontData {
  name_records : option (list (Z * pystr));
  glyphs : list N
}.

Record file := File { size : Z; content : option font_data }.

Record world := DemoWorld {
  files : list (pystr * file);
  fonts : list font_data;
  subsetters : list pystr
}.

Fixpoint find_file (path : pystr) (fs : list (pystr * file)) : option file :=
  match fs with
  | [] => None
  | (p, f) :: fs' => if bool_decide (p = path) then Some f else find_file path fs'
  end.

(** [s.rfind(c)] *)
Fixpoint rfind (c : N) (s : pystr) : option nat :=
  match s with
  | [] => None
  | x :: s' =>
      match rfind c s' with
      | Some i => Some (S i)
      | None => if (x =? c)%N then Some 0%nat else None
      end
  end.

(** The last component of a POSIX path that does not end in a slash. *)
Definition path_name (path : pystr) : pystr :=
  fold_left (λ acc c, if (c =? 47)%N then [] else acc ++ [c]) path [].

(** [PurePosixPath.suffix] as CPython 3.12 computes it. *)
Definition path_suffix (path : pystr) : pystr :=
  let name := path_name path in
  match rfind 46 name with
  | Some i =>
      if (0 <? i)%nat && (i <? length name - 1)%nat then drop i name else []
  | None => []
  end.

(** [str.lower] on ASCII text. *)
Definition ascii_lower (s : pystr) : pystr :=
  map (λ c, if (65 <=? c)%N && (c <=? 90)%N then (c + 32)%N else c) s.

Definition no_such_file {A} (w : world) : answer A * world :=
  (Failed (u"FileNotFoundError") (u"No such file or directory"), w).

Definition stale_object {A} (w : world) : answer A * world :=
  (Failed (u"ReferenceError") (u"no such object"), w).

Definition demo_exists (path : pystr) (w : world) : bool * world :=
  (bool_decide (is_Some (find_file path (files w))), w).

Definition demo_getsize (path : pystr) (w : world) : answer Z * world :=
  match find_file path (files w) with
  | Some f => (Done (size f), w)
  | None => no_such_file w
  end.

Definition demo_abspath (path : pystr) (w : world) : answer pystr * world :=
  (Done (u"/demo/" ++ path), w).

Definition demo_print (line : pystr) (w : world) : answer unit * world :=
  (Done tt, w).

Definition demo_open (path : pystr) (w : world) : answer nat * world :=
  match find_file path (files w) with
  | Some (File _ (Some fd)) =>
      (Done (length (fonts w)),
       DemoWorld (files w) (fonts w ++ [fd]) (subsetters w))
  | Some (File _ None) =>
      (Failed (u"TTLibError") (u"Not a TrueType or OpenType font"), w)
  | None => no_such_file w
  end.

Definition demo_names (font : nat) (w : world) : answer (list (Z * pystr)) * world :=
  match fonts w !! font with
  | Some (FontData (Some records) _) => (Done records, w)
  | Some (FontData None _) => (Failed (u"KeyError") (u"'name'"), w)
  | None => stale_object w
  end.

Definition demo_toUnicode (record : Z * pystr) (w : world) : answer pystr * world :=
  (Done (snd record), w).

Definition demo_getBestCmap (font : nat) (w : world)
    : answer (option (gmap N pystr)) * world :=
  match fonts w !! font with
  | Some fd => (Done (Some (list_to_map (map (λ c, (c, [c])) (glyphs fd)))), w)
  | None => stale_object w
  end.

Definition saved_size (fd : font_data) : Z :=
  1000 + 100 * Z.of_nat (length (glyphs fd)).

(** Saving to the empty path fails, as [open('', 'wb')] does. *)
Definition demo_save (font : nat) (path : pystr) (w : world) : answer unit * world :=
  match fonts w !! font with
  | Some fd =>
      if bool_decide (path = []) then no_such_file w
      else
        (Done tt,
         DemoWorld ((path, File (saved_size fd) (Some fd)) :: files w)
           (fonts w) (subsetters w))
  | None => stale_object w
  end.

Definition demo_close (font : nat) (w : world) : answer unit * world := (Done tt, w).

Definition demo_Subsetter (w : world) : answer nat * world :=
  (Done (length (subsetters w)),
   DemoWorld (files w) (fonts w) (subsetters w ++ [[]])).

Definition demo_populate (subsetter : nat) (text : pystr) (w : world)
    : answer unit * world :=
  (Done tt, DemoWorld (files w) (fonts w) (<[subsetter := text]> (subsetters w))).

Definition demo_subset (subsetter font : nat) (w : world) : answer unit * world :=
  match subsetters w !! subsetter, fonts w !! font with
  | Some text, Some fd =>
      let kept := filter (λ c, c ∈ text) (glyphs fd) in
      (Done tt,
       DemoWorld (files w)
         (<[font := FontData (name_records fd) kept]> (fonts w)) (subsetters w))
  | _, _ => stale_object w
  end.

#[export] Instance demo_platform : Platform := {|
  World := world;
  TTFont := nat;
  Subsetter := nat;
  NameRecord := Z * pystr;
  Path_suffix := path_suffix;
  str_lower := ascii_lower;
  os_path_exists := demo_exists;
  os_path_getsize := demo_getsize;
  os_path_abspath := demo_abspath;
  console_print := demo_print;
  TTFont_open := demo_open;
  TTFont_name_names := demo_names;
  nameID := fst;
  toUnicode := demo_toUnicode;
  TTFont_getBestCmap := demo_getBestCmap;
  TTFont_save := demo_save;
  TTFont_close := demo_close;
  Subsetter_new := demo_Subsetter;
  Subsetter_populate := demo_populate;
  Subsetter_subset := demo_subset
|}.

(** A font that maps the three kept characters and A, B, C. *)
Definition sample_font : font_data :=
  FontData (Some [(0, u"(c) demo"); (1, u"Demo Song"); (2, u"Regular")])
    (KEEP_TEXT ++ u"ABC").

(** The same font without its name table. *)
Definition nameless_font : font_data := FontData None (KEEP_TEXT ++ u"ABC").

Definition start (fs : list (pystr * file)) : state :=
  State (DemoWorld fs [] []) [].

(** The configured input is a font; there are also a text file and a file
    named like a font that is none. *)
Definition good_disk : list (pystr * file) :=
  [(INPUT_FONT, File 5000 (Some sample_font));
   (u"notes.txt", File 12 None);
   (u"broken.TTF", File 7 None)].

(** The configured input is a font without a name table. *)
Definition nameless_disk : list (pystr * file) :=
  [(INPUT_FONT, File 5000 (Some nameless_font))].

(** The lines a run printed. *)
Definition printed (st : state) : list pystr :=
  omap (λ c, match c with call_print line => Some line | _ => None end) (trace st).

End Demo.

(** ** Vocabulary of the specification *)

(** The error kinds of the specification, as the code raises them: the
    validation raises a [FileNotFoundError], or a [ValueError] whose message
    starts with one of two fixed texts, and the subsetter a [RuntimeError]. *)
Definition NotFoundError (e : exn) : Prop :=
  exn_type e = FileNotFoundError.
Definition UnsupportedFormatError (e : exn) : Prop :=
  exn_type e = ValueError ∧ u"不支持的字体格式: " `prefix_of` exn_str e.
Definition InvalidFontError (e : exn) : Prop :=
  exn_type e = ValueError ∧ u"无效的字体文件: " `prefix_of` exn_str e.
Definition SubsetFailureError (e : exn) : Prop :=
  exn_type e = RuntimeError ∧ u"字体裁剪失败: " `prefix_of` exn_str e.

(** No font was opened between two states of a run. *)
Definition no_parse_between `{Platform} (st st' : state) : Prop :=
  ∃ calls, trace st' = trace st ++ calls ∧ ∀ path, call_TTFont path ∉ calls.

(** [m] raises only exceptions that satisfy [P], and exits the interpreter
    only when [may_exit] is set. *)
Definition raises_only `{Platform} {A} (P : exn → Prop) (may_exit : bool)
    (m : M A) : Prop :=
  ∀ st, match (m st).1 with
        | Return _ => True
        | Raise e => P e
        | Exit _ => may_exit = true
        end.

(** An exception that is not a division by zero. *)
Definition not_zero_division (e : exn) : Prop :=
  exn_type e ≠ ZeroDivisionError.

(** The decimal digit [d] as a character. *)
Definition digit (d : Z) : N := Z.to_N (48 + d).

(** ** The script around [main] (lines 12-18 and 208-224) *)

(** What [input] gives: the line typed, an interrupt from the keyboard, or
    a failure of the console (a closed standard input raises [EOFError]). *)
Inductive keyboard :=
| Typed (line : pystr)
| CtrlC
| Closed (class_name message : pystr).

(** What the script asks beyond [Platform].  The trace records the calls of
    [Platform] only; [input] acts on the world and leaves no entry. *)
Class Terminal `{Platform} := {
  (** the imports of lines 13-14: [false] when they raise [ImportError] *)
  import_fonttools : World → bool * World;
  (** [input(prompt)] *)
  console_input : pystr → World → keyboard * World;
  (** [s.strip()] *)
  str_strip : pystr → pystr
}.

Section Script.
Context `{Terminal}.

Definition imported : M bool := λ st,
  let '(ok, w) := import_fonttools (world st) in (Return ok, State w (trace st)).

Definition input (prompt : pystr) : M keyboard := λ st,
  let '(typed, w) := console_input prompt (world st) in
  (Return typed, State w (trace st)).

(** Lines 12-18. *)
Definition check_fonttools : M unit :=
  ok ← imported;
  if negb ok then
    _ ← print (u"错误: 请先安装 fonttools");
    _ ← print (u"运行: pip install fonttools");
    sys_exit 1
  else mret tt.

(** Lines 210-214. *)
Definition show_configuration : M unit :=
  _ ← print (u"当前配置的保留文字:");
  _ ← print (str_mul (u"-") 30);
  _ ← print (str_strip KEEP_TEXT);
  _ ← print (str_mul (u"-") 30);
  print [].

(** The answers of line 219 that start the work. *)
Definition AFFIRMATIVE : list pystr := [u"y"; u"yes"; u"是"; []].

Definition PROMPT : pystr := u"是否使用以上配置进行字体裁剪? (y/n): ".

(** Lines 217-224.  An interrupt is caught at the prompt only: signals
    during [main] are not part of the model. *)
Definition confirm_and_run : M unit :=
  typed ← input PROMPT;
  match typed with
  | Typed line =>
      let response := str_strip (str_lower line) in
      if bool_decide (response ∈ AFFIRMATIVE) then main
      else print (u"已取消操作。请修改脚本中的 KEEP_TEXT 变量后重新运行。")
  | CtrlC => print ([10%N] ++ u"已取消操作。")
  | Closed cls msg => raise (Exn (Foreign cls) msg)
  end.

(** The module run as a script. *)
Definition script : M unit :=
  _ ← check_fonttools;
  _ ← show_configuration;
  confirm_and_run.

End Script.

(** A terminal for the small platform: fontTools is installed or not, and
    the keyboard gives the same answer whenever asked. *)
Module DemoTerminal.
Import Demo.

Definition is_space (c : N) : bool :=
  bool_decide (c ∈ [32; 9; 10; 11; 12; 13]%N).

Fixpoint lstrip (s : pystr) : pystr :=
  match s with
  | c :: s' => if is_space c then lstrip s' else s
  | [] => []
  end.

(** [str.strip] on ASCII white space. *)
Definition ascii_strip (s : pystr) : pystr :=
  reverse (lstrip (reverse (lstrip s))).

Definition demo_terminal (installed : bool) (typed : keyboard)
    : @Terminal demo_platform := {|
  import_fonttools := λ w, (installed, w);
  console_input := λ _ w, (typed, w);
  str_strip := ascii_strip
|}.

End DemoTerminal.

(** ** Vocabulary for the calls of a run *)

(** Every call that [m] adds to the trace satisfies [P]. *)
Definition calls_only `{Platform} {A} (P : call → Prop) (m : M A) : Prop :=
  ∀ st, ∃ calls, trace (m st).2 = trace st ++ calls ∧ Forall P calls.

Definition is_print (c : call) : Prop :=
  match c with call_print _ => True | _ => False end.

(** The calls that read the file at [path] or a font object, and nothing
    else. *)
Definition reads_only (path : pystr) (c : call) : Prop :=
  match c with
  | call_exists p | call_TTFont p | call_getsize p => p = path
  | call_names | call_toUnicode | call_getBestCmap | call_close => True
  | _ => False
  end.

(** The calls of a run of [main] with the configuration of the script. *)
Definition main_call (c : call) : Prop :=
  match c with
  | call_exists p | call_TTFont p | call_getsize p =>
      p = INPUT_FONT ∨ p = OUTPUT_FONT
  | call_abspath p | call_save p => p = OUTPUT_FONT
  | call_populate text =>
      text = prepare_text KEEP_TEXT KEEP_BASIC_LATIN KEEP_NUMBERS KEEP_PUNCTUATION
  | _ => True
  end.

(** The calls of a complete run of [validate_font_file]. *)
Definition validate_calls (font_path : pystr) : list call :=
  [call_exists font_path; call_TTFont font_path; call_close].

(** The calls of a complete run of [get_font_info]; [decoded] tells whether
    a record of the name table was decoded. *)
Definition info_calls (font_path : pystr) (decoded : bool) : list call :=
  [call_TTFont font_path; call_names] ++
  (if decoded then [call_toUnicode] else []) ++
  [call_getBestCmap; call_getsize font_path; call_close].

(** The calls of a complete run of the [try] of [subset_font]. *)
Definition subset_try_calls (input_path output_path text : pystr) : list call :=
  [call_TTFont input_path; call_Subsetter; call_populate text; call_subset;
   call_save output_path; call_close].

(** The calls of a complete run of [subset_font]. *)
Definition subset_calls (input_path output_path text : pystr) : list call :=
  validate_calls input_path ++ subset_try_calls input_path output_path text.

(** An exception of one of the four kinds of the program. *)
Definition program_error (e : exn) : Prop :=
  NotFoundError e ∨ UnsupportedFormatError e ∨ InvalidFontError e ∨
  SubsetFailureError e.

(** * Properties *)

(** Closes a decidable goal on closed terms by evaluating its decision. *)
Ltac decide_by_computation :=
  refine (bool_decide_unpack _ _); vm_compute; exact I.

(** ** The character-set preparer *)

(** The literals, code point by code point. *)
Example KEEP_TEXT_code_points : KEEP_TEXT = [0x6EF4; 0x5929; 0x9AD3]%N.
Proof. reflexivity. Qed.

Example BASIC_LATIN_code_points :
  BASIC_LATIN = N.of_nat <$> seq 32 16 ++ seq 58 7 ++ seq 91 6 ++ seq 123 4.
Proof. reflexivity. Qed.

Example NUMBERS_code_points : NUMBERS = N.of_nat <$> seq 48 10.
Proof. reflexivity. Qed.

Example PUNCTUATION_code_points :
  PUNCTUATION =
    [0x3002; 0xFF0C; 0x3001; 0xFF1B; 0xFF1A; 0xFF1F; 0xFF01; 0x22; 0x22;
     0x3010; 0x3011; 0x300A; 0x300B; 0xFF08; 0xFF09; 0xB7; 0x2014; 0x2026]%N.
Proof. reflexivity. Qed.

Section prepare_text_facts.
Implicit Types (s : gset N) (text : pystr) (c : N).

Lemma sorted_Permutation s : sorted s ≡ₚ elements s.
Proof. apply merge_sort_Permutation. Qed.

Lemma elem_of_sorted s c : c ∈ sorted s ↔ c ∈ s.
Proof. by rewrite sorted_Permutation, elem_of_elements. Qed.

Lemma NoDup_sorted s : NoDup (sorted s).
Proof. rewrite sorted_Permutation. apply NoDup_elements. Qed.

Lemma list_to_set_sorted s : list_to_set (sorted s) = s.
Proof.
  apply set_eq. intros c. by rewrite elem_of_list_to_set, elem_of_sorted.
Qed.

Lemma length_sorted s : length (sorted s) = size s.
Proof. unfold size, set_size. simpl. by rewrite sorted_Permutation. Qed.

Lemma prepare_text_sorted_union text (b n p : bool) :
  prepare_text text b n p = sorted (list_to_set text ∪ supplement b n p).
Proof.
  unfold prepare_text, supplement.
  generalize (list_to_set text : gset N) (list_to_set BASIC_LATIN : gset N)
    (list_to_set NUMBERS : gset N) (list_to_set PUNCTUATION : gset N).
  intros T B D P. f_equal. apply set_eq. intros c.
  destruct b, n, p; rewrite ?elem_of_union, ?elem_of_empty; tauto.
Qed.

Lemma elem_of_prepare_text text (b n p : bool) c :
  c ∈ prepare_text text b n p ↔ c ∈ text ∨ c ∈ supplement b n p.
Proof.
  by rewrite prepare_text_sorted_union, elem_of_sorted, elem_of_union,
    elem_of_list_to_set.
Qed.

(** The output is in ascending order of code points (section 4.3). *)
Lemma prepare_text_ascending text (b n p : bool) :
  StronglySorted N.le (prepare_text text b n p).
Proof. apply (StronglySorted_merge_sort _). Qed.

Lemma supplement_mono (b n p b' n' p' : bool) :
  (b → b') → (n → n') → (p → p') → supplement b n p ⊆ supplement b' n' p'.
Proof.
  intros Hb Hn Hp c. unfold supplement.
  generalize (list_to_set BASIC_LATIN : gset N)
    (list_to_set NUMBERS : gset N) (list_to_set PUNCTUATION : gset N).
  intros B D P. rewrite !elem_of_union.
  destruct b, n, p; rewrite ?elem_of_empty;
    try rewrite (Is_true_true_1 _ (Hb I));
    try rewrite (Is_true_true_1 _ (Hn I));
    try rewrite (Is_true_true_1 _ (Hp I)); tauto.
Qed.

Lemma prepare_text_mono text (b n p b' n' p' : bool) :
  (b → b') → (n → n') → (p → p') →
  prepare_text text b n p ⊆ prepare_text text b' n' p'.
Proof.
  intros Hb Hn Hp c. rewrite !elem_of_prepare_text.
  intros [?|?]; [by left|right]. by eapply supplement_mono.
Qed.

(** What the three literals hold, as the code has them. *)
Lemma supplement_census :
  size (list_to_set BASIC_LATIN : gset N) = 33%nat ∧
  size (list_to_set NUMBERS : gset N) = 10%nat ∧
  size (list_to_set PUNCTUATION : gset N) = 17%nat ∧
  (list_to_set BASIC_LATIN : gset N) ∩ list_to_set PUNCTUATION = {[ 34%N ]} ∧
  size (supplement true true true) = 59%nat.
Proof. split_and!; vm_compute; reflexivity. Qed.

End prepare_text_facts.

(** C1: for every text and every value of the three flags, the result of
    [prepare_text] has no character twice and holds every character of the
    text. *)
Theorem prepare_text_nodup_superset (text : pystr) (b n p : bool) :
  NoDup (prepare_text text b n p) ∧ text ⊆ prepare_text text b n p.
Proof.
  split.
  - apply NoDup_sorted.
  - intros c Hc. apply elem_of_prepare_text. by left.
Qed.

(** C3: turning one flag on, the text and the two other flags being the
    same, never removes a character from the result. *)
Theorem prepare_text_flag_monotone (text : pystr) (b n p : bool) :
  prepare_text text false n p ⊆ prepare_text text true n p ∧
  prepare_text text b false p ⊆ prepare_text text b true p ∧
  prepare_text text b n false ⊆ prepare_text text b n true.
Proof. repeat split; apply prepare_text_mono; done. Qed.

(** C9: with the flags fixed, [prepare_text] applied to its own result
    returns that result, and two texts with the same characters, in
    whatever order and number, give the same result. *)
Theorem prepare_text_idempotent_order_blind (text : pystr) (b n p : bool) :
  prepare_text (prepare_text text b n p) b n p = prepare_text text b n p ∧
  ∀ text' : pystr, (∀ c, c ∈ text ↔ c ∈ text') →
    prepare_text text b n p = prepare_text text' b n p.
Proof.
  split.
  - rewrite (prepare_text_sorted_union (prepare_text _ _ _ _)).
    rewrite prepare_text_sorted_union, list_to_set_sorted.
    f_equal. apply set_eq. intros c. rewrite !elem_of_union. tauto.
  - intros text' Hsame. rewrite !prepare_text_sorted_union.
    f_equal. f_equal. apply set_eq. intros c.
    by rewrite !elem_of_list_to_set.
Qed.

Lemma prepare_text_idempotent_order_blind_witness :
  prepare_text (u"abca") false true false = prepare_text (u"cba") false true false.
Proof.
  apply (proj2 (prepare_text_idempotent_order_blind (u"abca") false true false)).
  intros c. change (u"abca") with [97; 98; 99; 97]%N.
  change (u"cba") with [99; 98; 97]%N.
  rewrite !elem_of_cons, !elem_of_nil. tauto.
Defined.

(** C2, as the code has it: on the empty text [prepare_text] returns nothing
    when the three flags are off and, when they are on, exactly the three
    literals together, in ascending order; the basic Latin literal has 33
    characters and the digits are 10; the digits are in neither of the two
    other literals; the third literal holds the 16 CJK and full-width marks,
    none of which is basic Latin. *)
Theorem prepare_text_empty_text :
  prepare_text [] false false false = [] ∧
  prepare_text [] true true true =
    sorted (list_to_set BASIC_LATIN ∪ list_to_set NUMBERS ∪ list_to_set PUNCTUATION) ∧
  size (list_to_set BASIC_LATIN : gset N) = 33%nat ∧
  size (list_to_set NUMBERS : gset N) = 10%nat ∧
  (list_to_set NUMBERS : gset N) ## list_to_set BASIC_LATIN ∧
  (list_to_set NUMBERS : gset N) ## list_to_set PUNCTUATION ∧
  size (list_to_set CJK_MARKS : gset N) = 16%nat ∧
  (list_to_set CJK_MARKS : gset N) ⊆ list_to_set PUNCTUATION ∧
  (list_to_set CJK_MARKS : gset N) ## list_to_set BASIC_LATIN.
Proof.
  split_and!;
    first [ vm_compute; reflexivity | decide_by_computation ].
Qed.

(** C2 as the specification words it fails: the basic Latin literal does
    not have 31 characters nor the third literal 15, these two share the
    ASCII double quote, and the result on the empty text with the three
    flags on does not have 56 characters. *)
Lemma prepare_text_empty_text_not_31_15_56 :
  size (list_to_set BASIC_LATIN : gset N) ≠ 31%nat ∧
  size (list_to_set PUNCTUATION : gset N) ≠ 15%nat ∧
  ¬ (list_to_set BASIC_LATIN : gset N) ## list_to_set PUNCTUATION ∧
  length (prepare_text [] true true true) ≠ 56%nat.
Proof.
  destruct supplement_census as (H33 & _ & H17 & _ & H59).
  split_and!.
  - rewrite H33. discriminate.
  - rewrite H17. discriminate.
  - intros Hdisj. apply (Hdisj 34%N); decide_by_computation.
  - rewrite prepare_text_sorted_union, length_sorted.
    replace (list_to_set [] ∪ supplement true true true)
      with (supplement true true true).
    + rewrite H59. discriminate.
    + apply set_eq. intros c.
      rewrite elem_of_union, elem_of_list_to_set, elem_of_nil. tauto.
Qed.

(** ** Running the monad *)

Section Running.
Context `{Platform}.

(** [M] is a monad: the three laws, at every state. *)
Lemma ret_bind {A B} (a : A) (k : A → M B) st : (mret a ≫= k) st = k a st.
Proof. reflexivity. Qed.

Lemma bind_ret {A} (m : M A) st : (m ≫= mret) st = m st.
Proof. unfold mbind, M_bind. by destruct (m st) as [[a|e|c] st']. Qed.

Lemma bind_assoc {A B C} (m : M A) (k1 : A → M B) (k2 : B → M C) st :
  ((m ≫= k1) ≫= k2) st = (m ≫= (λ a, k1 a ≫= k2)) st.
Proof. unfold mbind, M_bind. by destruct (m st) as [[a|e|c] st']. Qed.

Lemma bind_Return {A B} (m : M A) (k : A → M B) st a st' :
  m st = (Return a, st') → (m ≫= k) st = k a st'.
Proof. intros Hm. unfold mbind, M_bind. by rewrite Hm. Qed.

Lemma bind_Raise {A B} (m : M A) (k : A → M B) st e st' :
  m st = (Raise e, st') → (m ≫= k) st = (Raise e, st').
Proof. intros Hm. unfold mbind, M_bind. by rewrite Hm. Qed.

Lemma try_except_Return {A} (body : M A) handler st a st' :
  body st = (Return a, st') → try_except body handler st = (Return a, st').
Proof. intros Hm. unfold try_except. by rewrite Hm. Qed.

Lemma try_except_Raise {A} (body : M A) handler st e st' :
  body st = (Raise e, st') → try_except body handler st = handler e st'.
Proof. intros Hm. unfold try_except. by rewrite Hm. Qed.

Lemma platform_cases {A} c (op : World → answer A * World) st :
  (∃ a w, op (world st) = (Done a, w) ∧
     platform c op st = (Return a, State w (trace st ++ [c]))) ∨
  (∃ cls msg w, op (world st) = (Failed cls msg, w) ∧
     platform c op st = (Raise (Exn (Foreign cls) msg), State w (trace st ++ [c]))).
Proof.
  unfold platform. destruct (op (world st)) as [[a|cls msg] w]; eauto 6.
Qed.

Lemma exists_run path st :
  exists_ path st =
    (Return (os_path_exists path (world st)).1,
     State (os_path_exists path (world st)).2 (trace st ++ [call_exists path])).
Proof.
  unfold exists_, platform. by destruct (os_path_exists path (world st)).
Qed.

(** *** What a computation may raise *)

Lemma raises_only_ret {A} P x (a : A) : raises_only P x (mret a).
Proof. by intros st. Qed.

Lemma raises_only_bind {A B} P x (m : M A) (k : A → M B) :
  raises_only P x m → (∀ a, raises_only P x (k a)) → raises_only P x (m ≫= k).
Proof.
  intros Hm Hk st. specialize (Hm st). unfold mbind, M_bind.
  destruct (m st) as [[a|e|c] st']; simpl in *; [apply Hk|done..].
Qed.

Lemma raises_only_platform {A} P x c (op : World → answer A * World) :
  (∀ cls msg, P (Exn (Foreign cls) msg)) → raises_only P x (platform c op).
Proof.
  intros HP st. unfold platform.
  by destruct (op (world st)) as [[a|cls msg] w]; simpl.
Qed.

Lemma raises_only_raise {A} (P : exn → Prop) x e : P e → raises_only P x (raise (A:=A) e).
Proof. by intros He st. Qed.

Lemma raises_only_try_except {A} P Q x (body : M A) handler :
  raises_only Q x body → (∀ e, Q e → raises_only P x (handler e)) →
  raises_only P x (try_except body handler).
Proof.
  intros Hb Hh st. specialize (Hb st). unfold try_except.
  destruct (body st) as [[a|e|c] st']; simpl in *; [done| |done].
  by apply Hh.
Qed.

Lemma raises_only_weaken {A} (P Q : exn → Prop) x (m : M A) :
  (∀ e, P e → Q e) → raises_only P x m → raises_only Q x m.
Proof.
  intros HPQ Hm st. specialize (Hm st).
  destruct (m st).1; auto.
Qed.

End Running.

(** Walks through a sequence of binds, calls of the platform and raises. *)
Ltac raises_only_step :=
  repeat first
    [ apply raises_only_ret
    | apply raises_only_bind; [|intros ?]
    | apply raises_only_platform
    | apply raises_only_raise ].

(** ** The file validator *)

Section Validation.
Context `{Platform}.

Lemma unsupported_is_UnsupportedFormatError file_ext :
  UnsupportedFormatError (Exn ValueError (msg_unsupported file_ext)).
Proof. split; [done|]. by exists file_ext. Qed.

Lemma invalid_is_InvalidFontError e :
  InvalidFontError (Exn ValueError (msg_invalid e)).
Proof. split; [done|]. by exists (exn_str e). Qed.

Lemma subset_failed_is_SubsetFailureError e :
  SubsetFailureError (Exn RuntimeError (msg_subset_failed e)).
Proof. split; [done|]. by exists (exn_str e). Qed.

(** The kinds exclude one another: the two [ValueError]s differ in the
    first character of their message. *)
Lemma error_kinds_disjoint e :
  ¬ (UnsupportedFormatError e ∧ InvalidFontError e) ∧
  ¬ (NotFoundError e ∧ UnsupportedFormatError e) ∧
  ¬ (NotFoundError e ∧ InvalidFontError e).
Proof.
  split_and!.
  - intros [[_ [k1 H1]] [_ [k2 H2]]]. rewrite H1 in H2.
    apply (f_equal head) in H2. discriminate H2.
  - intros [Hn [Hv _]]. unfold NotFoundError in Hn. congruence.
  - intros [Hn [Hv _]]. unfold NotFoundError in Hn. congruence.
Qed.

Lemma validate_not_found font_path st :
  (os_path_exists font_path (world st)).1 = false →
  validate_font_file font_path st =
    (Raise (Exn FileNotFoundError (msg_not_found font_path)),
     State (os_path_exists font_path (world st)).2
       (trace st ++ [call_exists font_path])).
Proof.
  intros Hfound. unfold validate_font_file.
  rewrite (bind_Return _ _ _ _ _ (exists_run font_path st)).
  by rewrite Hfound.
Qed.

Lemma validate_unsupported font_path st :
  (os_path_exists font_path (world st)).1 = true →
  str_lower (Path_suffix font_path) ∉ supported_formats →
  validate_font_file font_path st =
    (Raise (Exn ValueError (msg_unsupported (str_lower (Path_suffix font_path)))),
     State (os_path_exists font_path (world st)).2
       (trace st ++ [call_exists font_path])).
Proof.
  intros Hfound Hext. unfold validate_font_file.
  rewrite (bind_Return _ _ _ _ _ (exists_run font_path st)).
  rewrite Hfound. simpl. by rewrite bool_decide_eq_false_2.
Qed.

Lemma validate_invalid font_path st cls msg w :
  (os_path_exists font_path (world st)).1 = true →
  str_lower (Path_suffix font_path) ∈ supported_formats →
  TTFont_open font_path (os_path_exists font_path (world st)).2 = (Failed cls msg, w) →
  validate_font_file font_path st =
    (Raise (Exn ValueError (msg_invalid (Exn (Foreign cls) msg))),
     State w (trace st ++ [call_exists font_path; call_TTFont font_path])).
Proof.
  intros Hfound Hext Hopen. unfold validate_font_file.
  rewrite (bind_Return _ _ _ _ _ (exists_run font_path st)).
  rewrite Hfound. simpl. rewrite bool_decide_eq_true_2 by done. simpl.
  unfold try_except, validate_font_file_try, mbind, M_bind, open_font, platform.
  simpl. rewrite Hopen. simpl. by rewrite <- app_assoc.
Qed.

End Validation.

(** C4: [validate_font_file] raises [FileNotFoundError] when the path does
    not exist; otherwise, when the lower-cased suffix of the path is none of
    .ttf, .otf, .woff, .woff2, it raises the unsupported-format [ValueError]
    and no font is opened; otherwise, when fontTools cannot open the file,
    it raises the invalid-font [ValueError]; and no exception is of two of
    these kinds at once. *)
Theorem validate_font_file_failures `{Platform} (font_path : pystr) (st : state) :
  let found := (os_path_exists font_path (world st)).1 in
  let w := (os_path_exists font_path (world st)).2 in
  let file_ext := str_lower (Path_suffix font_path) in
  (found = false →
     ∃ e st', validate_font_file font_path st = (Raise e, st') ∧
       NotFoundError e) ∧
  (found = true → file_ext ∉ supported_formats →
     ∃ e st', validate_font_file font_path st = (Raise e, st') ∧
       UnsupportedFormatError e ∧ exn_str e = msg_unsupported file_ext ∧
       no_parse_between st st') ∧
  (found = true → file_ext ∈ supported_formats →
     ∀ cls msg w', TTFont_open font_path w = (Failed cls msg, w') →
     ∃ e st', validate_font_file font_path st = (Raise e, st') ∧
       InvalidFontError e ∧ exn_str e = msg_invalid (Exn (Foreign cls) msg)) ∧
  (∀ e, ¬ (UnsupportedFormatError e ∧ InvalidFontError e) ∧
        ¬ (NotFoundError e ∧ UnsupportedFormatError e) ∧
        ¬ (NotFoundError e ∧ InvalidFontError e)).
Proof.
  intros found w file_ext. split_and!.
  - intros Hfound. do 2 eexists. split; [by apply validate_not_found|done].
  - intros Hfound Hext. do 2 eexists.
    split; [by apply validate_unsupported|].
    split; [apply unsupported_is_UnsupportedFormatError|].
    split; [done|]. exists [call_exists font_path]. split; [done|].
    intros path Hin. apply list_elem_of_singleton in Hin. discriminate.
  - intros Hfound Hext cls msg w' Hopen. do 2 eexists.
    split; [by eapply validate_invalid|].
    split; [apply invalid_is_InvalidFontError|done].
  - apply error_kinds_disjoint.
Qed.

(** ** The font info extractor *)

Section Info.
Context `{Platform}.

Lemma family_name_raises_only (P : exn → Prop) records font_name :
  (∀ cls msg, P (Exn (Foreign cls) msg)) →
  raises_only P false (family_name records font_name).
Proof.
  intros HP. induction records as [|record records IH]; simpl.
  - apply raises_only_ret.
  - destruct (nameID record =? 1); [by apply raises_only_platform|done].
Qed.

(** The body of the [try] raises nothing but what the platform raised, and
    does not exit. *)
Lemma get_font_info_try_raises_only font_path :
  raises_only (λ e, ∃ cls, exn_type e = Foreign cls) false
    (get_font_info_try font_path).
Proof.
  unfold get_font_info_try, open_font, names, getBestCmap, getsize, close.
  raises_only_step; try (by intros; eexists).
  apply family_name_raises_only. by intros; eexists.
Qed.

Lemma get_font_info_returns font_path st :
  ∃ info st', get_font_info font_path st = (Return info, st').
Proof.
  pose proof (get_font_info_try_raises_only font_path st) as Htry.
  unfold get_font_info, try_except.
  destruct (get_font_info_try font_path st) as [[info|e|c] st'];
    simpl in *; [by eauto..|done].
Qed.

Lemma get_font_info_sentinel font_path st e st' :
  get_font_info_try font_path st = (Raise e, st') →
  get_font_info font_path st = (Return UNKNOWN_INFO, st').
Proof. intros Htry. unfold get_font_info. by rewrite (try_except_Raise _ _ _ _ _ Htry). Qed.

End Info.

(** C5: [get_font_info] always returns.  When opening the font, reading the
    name table or the family name, reading the character map, reading the
    file size or closing the font raises, the result is the info whose name
    is the text Unknown, whose character count is 0 and whose file size
    is 0. *)
Theorem get_font_info_never_raises `{Platform} (font_path : pystr) (st : state) :
  (∃ info st', get_font_info font_path st = (Return info, st')) ∧
  (∀ e st', get_font_info_try font_path st = (Raise e, st') →
     get_font_info font_path st = (Return (FontInfo (u"Unknown") 0 0), st')) ∧
  (∀ e st1, open_font font_path st = (Raise e, st1) →
     get_font_info font_path st = (Return (FontInfo (u"Unknown") 0 0), st1)) ∧
  (∀ font st1, open_font font_path st = (Return font, st1) →
     (∀ e st2, names font st1 = (Raise e, st2) →
        get_font_info font_path st = (Return (FontInfo (u"Unknown") 0 0), st2)) ∧
     (∀ records st2, names font st1 = (Return records, st2) →
        (∀ e st3, family_name records (u"Unknown") st2 = (Raise e, st3) →
           get_font_info font_path st = (Return (FontInfo (u"Unknown") 0 0), st3)) ∧
        (∀ font_name st3,
           family_name records (u"Unknown") st2 = (Return font_name, st3) →
           (∀ e st4, getBestCmap font st3 = (Raise e, st4) →
              get_font_info font_path st = (Return (FontInfo (u"Unknown") 0 0), st4)) ∧
           (∀ cmap st4, getBestCmap font st3 = (Return cmap, st4) →
              (∀ e st5, getsize font_path st4 = (Raise e, st5) →
                 get_font_info font_path st = (Return (FontInfo (u"Unknown") 0 0), st5)) ∧
              (∀ file_size st5, getsize font_path st4 = (Return file_size, st5) →
                 (∀ e st6, close font st5 = (Raise e, st6) →
                    get_font_info font_path st = (Return (FontInfo (u"Unknown") 0 0), st6)) ∧
                 (∀ st6, close font st5 = (Return tt, st6) →
                    get_font_info font_path st =
                      (Return (FontInfo font_name (cmap_len cmap) file_size), st6))))))).
Proof.
  split; [apply get_font_info_returns|].
  split; [apply get_font_info_sentinel|].
  assert (Hbody : get_font_info_try font_path =
            (font ← open_font font_path;
             records ← names font;
             font_name ← family_name records (u"Unknown");
             cmap ← getBestCmap font;
             file_size ← getsize font_path;
             _ ← close font;
             mret (FontInfo font_name (cmap_len cmap) file_size))) by done.
  split.
  { intros e st1 H1. apply (get_font_info_sentinel _ _ e).
    rewrite Hbody. by apply bind_Raise. }
  intros font st1 H1. split.
  { intros e st2 H2. apply (get_font_info_sentinel _ _ e).
    rewrite Hbody, (bind_Return _ _ _ _ _ H1). by apply bind_Raise. }
  intros records st2 H2. split.
  { intros e st3 H3. apply (get_font_info_sentinel _ _ e).
    rewrite Hbody, (bind_Return _ _ _ _ _ H1), (bind_Return _ _ _ _ _ H2).
    by apply bind_Raise. }
  intros font_name st3 H3. split.
  { intros e st4 H4. apply (get_font_info_sentinel _ _ e).
    rewrite Hbody, (bind_Return _ _ _ _ _ H1), (bind_Return _ _ _ _ _ H2),
      (bind_Return _ _ _ _ _ H3).
    by apply bind_Raise. }
  intros cmap st4 H4. split.
  { intros e st5 H5. apply (get_font_info_sentinel _ _ e).
    rewrite Hbody, (bind_Return _ _ _ _ _ H1), (bind_Return _ _ _ _ _ H2),
      (bind_Return _ _ _ _ _ H3), (bind_Return _ _ _ _ _ H4).
    by apply bind_Raise. }
  intros file_size st5 H5. split.
  { intros e st6 H6. apply (get_font_info_sentinel _ _ e).
    rewrite Hbody, (bind_Return _ _ _ _ _ H1), (bind_Return _ _ _ _ _ H2),
      (bind_Return _ _ _ _ _ H3), (bind_Return _ _ _ _ _ H4),
      (bind_Return _ _ _ _ _ H5).
    by apply bind_Raise. }
  intros st6 H6. unfold get_font_info. apply try_except_Return.
  rewrite Hbody, (bind_Return _ _ _ _ _ H1), (bind_Return _ _ _ _ _ H2),
    (bind_Return _ _ _ _ _ H3), (bind_Return _ _ _ _ _ H4),
    (bind_Return _ _ _ _ _ H5).
  by rewrite (bind_Return _ _ _ _ _ H6).
Qed.

(** ** The subsetter *)

Section Subsetting.
Context `{Platform}.

Lemma subset_font_wraps input_path output_path text st v st1 e st2 :
  validate_font_file input_path st = (Return v, st1) →
  subset_font_try input_path output_path text st1 = (Raise e, st2) →
  subset_font input_path output_path text st =
    (Raise (Exn RuntimeError (msg_subset_failed e)), st2).
Proof.
  intros Hv Htry. unfold subset_font.
  rewrite (bind_Return _ _ _ _ _ Hv).
  by rewrite (try_except_Raise _ _ _ _ _ Htry).
Qed.

End Subsetting.

(** C6: [subset_font] starts with [validate_font_file] on the input path,
    whose exception it lets through as it is.  After a successful
    validation, an exception of the body (opening and parsing the font,
    creating and populating the subsetter, computing the subset, saving to
    the output path, closing) becomes one [RuntimeError] whose message is
    the text of line 131 followed by the [str] of that exception. *)
Theorem subset_font_failures `{Platform}
    (input_path output_path text : pystr) (st : state) :
  (∀ e st1, validate_font_file input_path st = (Raise e, st1) →
     subset_font input_path output_path text st = (Raise e, st1)) ∧
  (∀ v st1, validate_font_file input_path st = (Return v, st1) →
     let wrapped e := Exn RuntimeError (u"字体裁剪失败: " ++ exn_str e) in
     (∀ e, SubsetFailureError (wrapped e) ∧
           exn_type (wrapped e) = RuntimeError ∧
           exn_str (wrapped e) = u"字体裁剪失败: " ++ exn_str e) ∧
     (∀ e st2, subset_font_try input_path output_path text st1 = (Raise e, st2) →
        subset_font input_path output_path text st = (Raise (wrapped e), st2)) ∧
     (∀ e st2, open_font input_path st1 = (Raise e, st2) →
        subset_font input_path output_path text st = (Raise (wrapped e), st2)) ∧
     (∀ font st2 subsetter st3 st4,
        open_font input_path st1 = (Return font, st2) →
        new_subsetter st2 = (Return subsetter, st3) →
        populate subsetter text st3 = (Return tt, st4) →
        (∀ e st5, subset subsetter font st4 = (Raise e, st5) →
           subset_font input_path output_path text st = (Raise (wrapped e), st5)) ∧
        (∀ st5, subset subsetter font st4 = (Return tt, st5) →
           (∀ e st6, save font output_path st5 = (Raise e, st6) →
              subset_font input_path output_path text st = (Raise (wrapped e), st6)) ∧
           (∀ st6 st7, save font output_path st5 = (Return tt, st6) →
              close font st6 = (Return tt, st7) →
              subset_font input_path output_path text st = (Return true, st7))))).
Proof.
  split.
  { intros e st1 Hv. unfold subset_font. by apply bind_Raise. }
  intros v st1 Hv wrapped.
  split.
  { intros e. split; [apply subset_failed_is_SubsetFailureError|done]. }
  split; [intros e st2; apply subset_font_wraps with v; done|].
  assert (Hbody : subset_font_try input_path output_path text =
            (font ← open_font input_path;
             subsetter ← new_subsetter;
             _ ← populate subsetter text;
             _ ← subset subsetter font;
             _ ← save font output_path;
             _ ← close font;
             mret true)) by done.
  split.
  { intros e st2 H1. apply subset_font_wraps with v st1; [done|].
    rewrite Hbody. by apply bind_Raise. }
  intros font st2 subsetter st3 st4 H1 H2 H3. split.
  { intros e st5 H4. apply subset_font_wraps with v st1; [done|].
    rewrite Hbody, (bind_Return _ _ _ _ _ H1), (bind_Return _ _ _ _ _ H2),
      (bind_Return _ _ _ _ _ H3).
    by apply bind_Raise. }
  intros st5 H4. split.
  { intros e st6 H5. apply subset_font_wraps with v st1; [done|].
    rewrite Hbody, (bind_Return _ _ _ _ _ H1), (bind_Return _ _ _ _ _ H2),
      (bind_Return _ _ _ _ _ H3), (bind_Return _ _ _ _ _ H4).
    by apply bind_Raise. }
  intros st6 st7 H5 H6. unfold subset_font.
  rewrite (bind_Return _ _ _ _ _ Hv). apply try_except_Return.
  rewrite Hbody, (bind_Return _ _ _ _ _ H1), (bind_Return _ _ _ _ _ H2),
    (bind_Return _ _ _ _ _ H3), (bind_Return _ _ _ _ _ H4),
    (bind_Return _ _ _ _ _ H5).
  by rewrite (bind_Return _ _ _ _ _ H6).
Qed.

(** ** The driver *)

(** The quotient of two ints raises [ZeroDivisionError] for a zero divisor
    only; otherwise it returns, or raises [OverflowError]. *)
Lemma truediv_outcome (a b : Z) :
  b ≠ 0 →
  match truediv a b with
  | Return _ => True
  | Raise e => exn_type e = OverflowError
  | Exit _ => False
  end.
Proof.
  intros Hb. unfold truediv. rewrite (proj2 (Z.eqb_neq b 0)) by done.
  by destruct (round_double _ _).
Qed.

Lemma format_file_size_outcome (size_bytes : Z) :
  match format_file_size size_bytes with
  | Return _ => True
  | Raise e => exn_type e = OverflowError
  | Exit _ => False
  end.
Proof.
  unfold format_file_size.
  destruct (size_bytes <? 1024); [done|].
  destruct (size_bytes <? 1024 * 1024).
  - pose proof (truediv_outcome size_bytes 1024) as Hq.
    destruct (truediv size_bytes 1024); [done|by apply Hq|by apply Hq].
  - pose proof (truediv_outcome size_bytes (1024 * 1024)) as Hq.
    destruct (truediv size_bytes (1024 * 1024)); [done|by apply Hq|by apply Hq].
Qed.

Section Driver.
Context `{Platform}.

Lemma raises_only_lift {A} (P : exn → Prop) x (o : outcome A) :
  match o with Return _ => True | Raise e => P e | Exit _ => x = true end →
  raises_only P x (lift o).
Proof. by intros Ho st. Qed.

Lemma format_file_size_raises_only size_bytes :
  raises_only not_zero_division false (lift (format_file_size size_bytes)).
Proof.
  apply raises_only_lift. pose proof (format_file_size_outcome size_bytes) as Ho.
  destruct (format_file_size size_bytes); [done| |done].
  unfold not_zero_division. by rewrite Ho.
Qed.

Lemma get_font_info_raises_only (P : exn → Prop) font_path :
  raises_only P false (get_font_info font_path).
Proof.
  intros st. destruct (get_font_info_returns font_path st) as (info & st' & Hr).
  by rewrite Hr.
Qed.

Lemma validate_font_file_raises_only font_path :
  raises_only not_zero_division false (validate_font_file font_path).
Proof.
  unfold validate_font_file, exists_.
  apply raises_only_bind; [by apply raises_only_platform|]. intros found.
  destruct (negb found); [by apply raises_only_raise|].
  destruct (negb _); [by apply raises_only_raise|].
  apply raises_only_try_except with (Q := λ _, True).
  - unfold validate_font_file_try, open_font, close. raises_only_step; done.
  - intros e _. by apply raises_only_raise.
Qed.

Lemma subset_font_raises_only input_path output_path text :
  raises_only not_zero_division false (subset_font input_path output_path text).
Proof.
  unfold subset_font.
  apply raises_only_bind; [apply validate_font_file_raises_only|]. intros _.
  apply raises_only_try_except with (Q := λ _, True).
  - unfold subset_font_try, open_font, new_subsetter, populate, subset, save, close.
    raises_only_step; done.
  - intros e _. by apply raises_only_raise.
Qed.

(** The guard of line 193 keeps the division of line 194 from a zero
    divisor. *)
Lemma report_size_reduction_raises_only original_info subset_info :
  raises_only not_zero_division false
    (report_size_reduction original_info subset_info).
Proof.
  unfold report_size_reduction.
  destruct (info_file_size original_info >? 0) eqn:Hpos;
    [|apply raises_only_ret].
  apply raises_only_bind; [|intros ratio; by apply raises_only_platform].
  apply raises_only_lift.
  pose proof (truediv_outcome (info_file_size subset_info)
                (info_file_size original_info)) as Ho.
  destruct (truediv _ _); [done| |exfalso; apply Ho; lia].
  unfold not_zero_division. rewrite Ho; [done|lia].
Qed.

Lemma report_result_raises_only original_info :
  raises_only not_zero_division false (report_result original_info).
Proof.
  unfold report_result, exists_, abspath, print.
  apply raises_only_bind; [by apply raises_only_platform|]. intros written.
  destruct written; [|by apply raises_only_platform].
  apply raises_only_bind; [apply get_font_info_raises_only|]. intros subset_info.
  repeat first
    [ apply raises_only_platform; done
    | apply format_file_size_raises_only
    | apply report_size_reduction_raises_only
    | apply raises_only_bind; [|intros ?] ].
Qed.

Lemma main_try_raises_only : raises_only not_zero_division false main_try.
Proof.
  unfold main_try, exists_, print.
  apply raises_only_bind; [by apply raises_only_platform|]. intros _.
  apply raises_only_bind; [by apply raises_only_platform|]. intros _.
  apply raises_only_bind; [by apply raises_only_platform|]. intros found.
  destruct (negb found).
  { apply raises_only_bind; [|intros _]; by apply raises_only_platform. }
  repeat first
    [ apply raises_only_platform; done
    | apply format_file_size_raises_only
    | apply get_font_info_raises_only
    | apply subset_font_raises_only
    | apply report_result_raises_only
    | apply raises_only_bind; [|intros ?] ].
Qed.

Lemma main_raises_only : raises_only not_zero_division true main.
Proof.
  unfold main. apply raises_only_try_except with (Q := λ _, True).
  - intros st. pose proof (main_try_raises_only st) as Ht.
    by destruct (main_try st).1.
  - intros e _. apply raises_only_bind; [by apply raises_only_platform|].
    by intros _ st.
Qed.

End Driver.

(** C8: when the original size is 0 the size reduction is neither computed
    nor printed (the state, and with it the trace of printed lines, is left
    as it was); when it is positive and the quotient is finite, the line
    printed is [(1 - subset/original) * 100] to one decimal; and neither
    these lines, nor the body of [main], nor [main] ever raise
    [ZeroDivisionError]. *)
Theorem size_reduction_guarded `{Platform}
    (original_info subset_info : font_info) (st : state) :
  (info_file_size original_info = 0 →
     report_size_reduction original_info subset_info st = (Return tt, st)) ∧
  (0 < info_file_size original_info →
     ∀ ratio,
       truediv (info_file_size subset_info) (info_file_size original_info)
         = Return ratio →
       report_size_reduction original_info subset_info st =
         print (u"  大小减少: " ++
                format_1f (float_mul (float_sub (float_of_int 1) ratio)
                             (float_of_int 100)) ++ u"%") st) ∧
  raises_only not_zero_division false
    (report_size_reduction original_info subset_info) ∧
  raises_only not_zero_division false main_try ∧
  raises_only not_zero_division true main.
Proof.
  split_and!.
  - intros Hzero. unfold report_size_reduction. by rewrite Hzero.
  - intros Hpos ratio Hratio. unfold report_size_reduction.
    rewrite (proj2 (Z.gtb_gt _ _)) by lia.
    unfold mbind, M_bind, lift. by rewrite Hratio.
  - apply report_size_reduction_raises_only.
  - apply main_try_raises_only.
  - apply main_raises_only.
Qed.

(** ** Sizes in human units *)

Section Rounding.
Implicit Types (num den t : Z).

Lemma round_half_even_cases num den :
  0 < den →
  ∃ q r, num = den * q + r ∧ 0 ≤ r < den ∧
    ((2 * r ≤ den ∧ round_half_even num den = q) ∨
     (den ≤ 2 * r ∧ round_half_even num den = q + 1)).
Proof.
  intros Hden. exists (num / den), (num mod den).
  pose proof (Z.div_mod num den) as Hdm.
  pose proof (Z.mod_pos_bound num den Hden) as Hr.
  split; [lia|]. split; [lia|]. unfold round_half_even.
  destruct (Z.ltb_spec (2 * (num mod den)) den); [left; lia|].
  destruct (Z.ltb_spec den (2 * (num mod den))); [right; lia|].
  destruct (Z.even (num / den)); [left|right]; lia.
Qed.

Lemma round_half_even_error num den :
  0 < den → Z.abs (2 * num - 2 * den * round_half_even num den) ≤ den.
Proof.
  intros Hden.
  destruct (round_half_even_cases num den Hden) as (q & r & -> & Hr & [[? ->]|[? ->]]); lia.
Qed.

Lemma round_half_even_nonneg num den :
  0 ≤ num → 0 < den → 0 ≤ round_half_even num den.
Proof.
  intros Hnum Hden.
  destruct (round_half_even_cases num den Hden) as (q & r & Hq & Hr & [[? ->]|[? ->]]); nia.
Qed.

Lemma round_half_even_le num den t :
  0 < den → num ≤ den * t → round_half_even num den ≤ t.
Proof.
  intros Hden Hle.
  destruct (round_half_even_cases num den Hden) as (q & r & Hq & Hr & [[? ->]|[? ->]]); nia.
Qed.

Lemma round_half_even_below_half num den t :
  0 < den → 2 * num < den * (2 * t - 1) → round_half_even num den ≤ t - 1.
Proof.
  intros Hden Hlt.
  destruct (round_half_even_cases num den Hden) as (q & r & Hq & Hr & [[? ->]|[? ->]]); nia.
Qed.

Lemma round_half_even_exact den t :
  0 < den → round_half_even (den * t) den = t.
Proof.
  intros Hden.
  destruct (round_half_even_cases (den * t) den Hden) as (q & r & Hq & Hr & [[? ->]|[? ->]]); nia.
Qed.

End Rounding.

Section Quotients.
Implicit Types (n k m e t : Z).

(** The double nearest to [n / 2^k] when the quotient is at least 1. *)
Lemma round_double_quotient n k :
  0 ≤ k → 2 ^ k ≤ n →
  let e := Z.log2 n - k - 52 in
  let m := round_half_even (n * 2 ^ Z.max 0 (- e)) (2 ^ k * 2 ^ Z.max 0 e) in
  round_double n (2 ^ k) =
    if (0 <=? e) && (2 ^ 1024 <=? m * 2 ^ e) then Infinity false else Finite m e.
Proof.
  intros Hk Hn e m.
  assert (0 < 2 ^ k) as Hpow by (apply Z.pow_pos_nonneg; lia).
  assert (0 < n) as Hpos by lia.
  assert (k ≤ Z.log2 n) as Hlog by (by apply Z.log2_le_pow2).
  destruct (Z.log2_spec n Hpos) as [Hlo _].
  unfold round_double.
  rewrite (proj2 (Z.eqb_neq n 0)) by lia.
  rewrite Z.abs_eq, Z.log2_pow2 by lia.
  rewrite (Z.max_l 0 (- (Z.log2 n - k))), (Z.max_r 0 (Z.log2 n - k)) by lia.
  rewrite <- Z.pow_add_r by lia.
  replace (k + (Z.log2 n - k)) with (Z.log2 n) by lia.
  rewrite Z.pow_0_r, Z.mul_1_r.
  rewrite (proj2 (Z.ltb_ge n (2 ^ Z.log2 n))) by lia.
  rewrite (Z.max_l (Z.log2 n - k - 52) (-1074)) by lia.
  rewrite (proj2 (Z.ltb_ge n 0)) by lia.
  rewrite Z.sgn_pos, Z.mul_1_l by lia.
  reflexivity.
Qed.

(** Below [2^k * (2^1024 - 2^970)] the quotient is a finite double. *)
Lemma round_double_quotient_finite n k :
  0 ≤ k → 2 ^ k ≤ n → n < 2 ^ k * (2 ^ 1024 - 2 ^ 970) →
  ∃ m e, round_double n (2 ^ k) = Finite m e ∧ 0 ≤ m.
Proof.
  intros Hk Hn Hbound.
  assert (0 < 2 ^ k) as Hpow by (apply Z.pow_pos_nonneg; lia).
  assert (0 < n) as Hpos by lia.
  assert (k ≤ Z.log2 n) as Hlog by (by apply Z.log2_le_pow2).
  destruct (Z.log2_spec n Hpos) as [Hlo Hhi].
  rewrite round_double_quotient by done.
  set (e := Z.log2 n - k - 52).
  set (m := round_half_even _ _).
  assert (0 ≤ m) as Hm.
  { apply round_half_even_nonneg.
    - apply Z.mul_nonneg_nonneg; [lia|]. apply Z.pow_nonneg; lia.
    - apply Z.mul_pos_pos; [done|]. apply Z.pow_pos_nonneg; lia. }
  destruct (Z.leb_spec 0 e) as [He|He]; simpl; [|by eauto].
  destruct (Z.leb_spec (2 ^ 1024) (m * 2 ^ e)) as [Hover|_]; [exfalso|by eauto].
  subst m. rewrite (Z.max_r 0 e), (Z.max_l 0 (- e)) in Hover by lia.
  rewrite Z.pow_0_r, Z.mul_1_r in Hover.
  assert (0 < 2 ^ e) as Hpe by (apply Z.pow_pos_nonneg; lia).
  assert (Z.log2 n = k + e + 52) as Hlog2 by lia.
  assert (e ≤ 971) as He971.
  { destruct (Z.le_gt_cases e 971) as [|Hbig]; [done|exfalso].
    assert (2 ^ (k + 1024) ≤ 2 ^ Z.log2 n) by (apply Z.pow_le_mono_r; lia).
    rewrite Z.pow_add_r in H by lia. nia. }
  destruct (Z.eq_dec e 971) as [->|Hne].
  - assert (round_half_even n (2 ^ k * 2 ^ 971) ≤ 2 ^ 53 - 1) as Hm53.
    { apply round_half_even_below_half; [lia|]. nia. }
    nia.
  - assert (round_half_even n (2 ^ k * 2 ^ e) ≤ 2 ^ 53) as Hm53.
    { apply round_half_even_le; [lia|].
      rewrite Hlog2 in Hhi.
      replace (Z.succ (k + e + 52)) with (k + e + 53) in Hhi by lia.
      rewrite !Z.pow_add_r in Hhi by lia. nia. }
    assert (2 ^ e ≤ 2 ^ 970) by (apply Z.pow_le_mono_r; lia).
    assert (round_half_even n (2 ^ k * 2 ^ e) * 2 ^ e ≤ 2 ^ 53 * 2 ^ 970) by
      (apply Z.mul_le_mono_nonneg; lia).
    lia.
Qed.

(** An integer quotient below [2^53] is exact. *)
Lemma round_double_quotient_exact n k :
  0 < k → 2 ^ k ≤ n → n < 2 ^ 53 →
  ∃ j, 0 ≤ j ∧ round_double n (2 ^ k) = Finite (n * 2 ^ j) (- (k + j)).
Proof.
  intros Hk Hn Hbound.
  assert (0 < 2 ^ k) as Hpow by (apply Z.pow_pos_nonneg; lia).
  assert (0 < n) as Hpos by lia.
  assert (k ≤ Z.log2 n) as Hlog by (apply Z.log2_le_pow2; [done|lia]).
  assert (Z.log2 n < 53) as Hlog53 by (apply Z.log2_lt_pow2; lia).
  exists (52 - Z.log2 n). split; [lia|].
  rewrite round_double_quotient by lia.
  set (e := Z.log2 n - k - 52).
  rewrite (proj2 (Z.leb_gt 0 e)) by lia. simpl.
  rewrite (Z.max_l 0 e), (Z.max_r 0 (- e)) by lia.
  rewrite Z.pow_0_r, Z.mul_1_r.
  replace (- e) with (k + (52 - Z.log2 n)) by lia.
  rewrite Z.pow_add_r by lia.
  replace (n * (2 ^ k * 2 ^ (52 - Z.log2 n)))
    with (2 ^ k * (n * 2 ^ (52 - Z.log2 n))) by lia.
  rewrite round_half_even_exact by done.
  f_equal. lia.
Qed.

End Quotients.

Section Formatting.
Implicit Types (n k m e t d : Z).

Lemma str_int_digit d : 0 ≤ d < 10 → str_int d = [digit d].
Proof.
  intros Hd.
  assert (d = 0 ∨ d = 1 ∨ d = 2 ∨ d = 3 ∨ d = 4 ∨ d = 5 ∨ d = 6 ∨ d = 7 ∨
          d = 8 ∨ d = 9) as Hcases by lia.
  repeat (destruct Hcases as [->|Hcases]; [reflexivity|]). by subst.
Qed.

(** A non-negative double to one decimal. *)
Lemma format_1f_nonneg m e :
  0 ≤ m →
  ∃ t, t = round_half_even (10 * float_num m e) (float_den e) ∧ 0 ≤ t ∧
    format_1f (Finite m e) = str_int (t / 10) ++ u"." ++ [digit (t mod 10)].
Proof.
  intros Hm. eexists. split; [reflexivity|].
  assert (0 < float_den e) as Hden by (apply Z.pow_pos_nonneg; lia).
  assert (0 ≤ float_num m e) as Hnum.
  { apply Z.mul_nonneg_nonneg; [done|]. apply Z.pow_nonneg. lia. }
  split; [apply round_half_even_nonneg; lia|].
  unfold format_1f. rewrite (proj2 (Z.ltb_ge m 0)) by done.
  rewrite Z.abs_eq by done. simpl app at 1.
  rewrite (str_int_digit (_ mod 10)); [done|].
  apply Z.mod_pos_bound. lia.
Qed.

(** [n / 2^k] to one decimal, for [n] below [2^53]: the tenths [t] are
    those nearest to the quotient. *)
Lemma format_1f_quotient_exact n k j :
  0 < k → 0 ≤ j → 0 ≤ n →
  ∃ t, 0 ≤ t ∧ Z.abs (20 * n - 2 * 2 ^ k * t) ≤ 2 ^ k ∧
    format_1f (Finite (n * 2 ^ j) (- (k + j))) =
      str_int (t / 10) ++ u"." ++ [digit (t mod 10)].
Proof.
  intros Hk Hj Hn.
  assert (0 < 2 ^ k) as Hpk by (apply Z.pow_pos_nonneg; lia).
  assert (0 < 2 ^ j) as Hpj by (apply Z.pow_pos_nonneg; lia).
  destruct (format_1f_nonneg (n * 2 ^ j) (- (k + j))) as (t & Ht & Ht0 & Hfmt);
    [nia|].
  exists t. split; [done|]. split; [|done].
  unfold float_num, float_den in Ht.
  rewrite (Z.max_l 0 (- (k + j))), Z.opp_involutive, (Z.max_r 0 (k + j)) in Ht
    by lia.
  rewrite Z.pow_0_r, Z.mul_1_r, Z.pow_add_r in Ht by lia.
  pose proof (round_half_even_error (10 * (n * 2 ^ j)) (2 ^ k * 2 ^ j)) as Herr.
  rewrite <- Ht in Herr. specialize (Herr ltac:(nia)).
  replace (2 * (10 * (n * 2 ^ j)) - 2 * (2 ^ k * 2 ^ j) * t)
    with (2 ^ j * (20 * n - 2 * 2 ^ k * t)) in Herr by lia.
  rewrite Z.abs_mul, (Z.abs_eq (2 ^ j)) in Herr by lia.
  nia.
Qed.

End Formatting.

Section Sizes.
Implicit Types (n k : Z).

Lemma truediv_quotient n k :
  0 ≤ k →
  truediv n (2 ^ k) =
    match round_double n (2 ^ k) with
    | Infinity _ =>
        Raise (Exn OverflowError
                 (u"integer division result too large for a float"))
    | x => Return x
    end.
Proof.
  intros Hk. assert (0 < 2 ^ k) as Hpow by (apply Z.pow_pos_nonneg; lia).
  unfold truediv. rewrite (proj2 (Z.eqb_neq (2 ^ k) 0)) by lia.
  by rewrite Z.sgn_pos, Z.mul_1_r, Z.abs_eq by lia.
Qed.

(** The quotient by [2^k] of a size from [2^k] up to the overflow, to one
    decimal. *)
Lemma format_1f_size n k :
  0 < k → 2 ^ k ≤ n → n < 2 ^ k * (2 ^ 1024 - 2 ^ 970) →
  ∃ x t, truediv n (2 ^ k) = Return x ∧ 0 ≤ t ∧
    (n < 2 ^ 53 → Z.abs (20 * n - 2 * 2 ^ k * t) ≤ 2 ^ k) ∧
    format_1f x = str_int (t / 10) ++ u"." ++ [digit (t mod 10)].
Proof.
  intros Hk Hn Hbound.
  assert (0 < 2 ^ k) as Hpow by (apply Z.pow_pos_nonneg; lia).
  rewrite truediv_quotient by lia.
  destruct (Z.lt_ge_cases n (2 ^ 53)) as [Hsmall|Hlarge].
  - destruct (round_double_quotient_exact n k) as (j & Hj & ->); [done..|].
    destruct (format_1f_quotient_exact n k j) as (t & Ht & Herr & Hfmt);
      [lia..|].
    by exists (Finite (n * 2 ^ j) (- (k + j))), t.
  - destruct (round_double_quotient_finite n k) as (m & e & -> & Hm); [lia..|].
    destruct (format_1f_nonneg m e Hm) as (t & _ & Ht & Hfmt).
    exists (Finite m e), t. split_and!; [done..|lia|done].
Qed.

End Sizes.

(** C10: a size equal to a threshold is rendered in the larger unit. *)
Theorem format_file_size_at_thresholds :
  format_file_size 1024 = Return (u"1.0 KB") ∧
  format_file_size (1024 * 1024) = Return (u"1.0 MB").
Proof. split; vm_compute; reflexivity. Qed.

(** C7, as the code has it: 512, 2048 and 2 * 1024 * 1024 bytes are
    rendered as 512 B, 2.0 KB and 2.0 MB; a size from 0 below 1024 is
    rendered as that number of B; a size from 1024 below 1024 * 1024 as
    the tenths nearest to its quotient by 1024, with one decimal, and KB;
    a size from 1024 * 1024 below 2^1044 - 2^990 with one decimal and MB,
    the tenths being those nearest to its quotient by 1024 * 1024 when it
    is below 2^53. *)
Theorem format_file_size_units (n : Z) :
  format_file_size 512 = Return (u"512 B") ∧
  format_file_size 2048 = Return (u"2.0 KB") ∧
  format_file_size (2 * 1024 * 1024) = Return (u"2.0 MB") ∧
  (0 ≤ n < 1024 → format_file_size n = Return (str_int n ++ u" B")) ∧
  (1024 ≤ n < 1024 * 1024 →
     ∃ t, 0 ≤ t ∧ Z.abs (20 * n - 2 * 1024 * t) ≤ 1024 ∧
       format_file_size n =
         Return (str_int (t / 10) ++ u"." ++ [digit (t mod 10)] ++ u" KB")) ∧
  (1024 * 1024 ≤ n < 2 ^ 1044 - 2 ^ 990 →
     ∃ t, 0 ≤ t ∧
       (n < 2 ^ 53 → Z.abs (20 * n - 2 * (1024 * 1024) * t) ≤ 1024 * 1024) ∧
       format_file_size n =
         Return (str_int (t / 10) ++ u"." ++ [digit (t mod 10)] ++ u" MB")).
Proof.
  split_and!.
  - vm_compute; reflexivity.
  - vm_compute; reflexivity.
  - vm_compute; reflexivity.
  - intros Hn. unfold format_file_size.
    by rewrite (proj2 (Z.ltb_lt n 1024)) by lia.
  - intros Hn.
    destruct (format_1f_size n 10) as (x & t & Hdiv & Ht & Herr & Hfmt);
      [lia| change (2 ^ 10) with 1024; lia | |].
    { assert (1024 * 1024 < 2 ^ 10 * (2 ^ 1024 - 2 ^ 970)) by reflexivity. lia. }
    exists t. split; [done|]. split.
    { apply Herr. assert (1024 * 1024 < 2 ^ 53) by reflexivity. lia. }
    unfold format_file_size.
    rewrite (proj2 (Z.ltb_ge n 1024)), (proj2 (Z.ltb_lt n (1024 * 1024))) by lia.
    change 1024 with (2 ^ 10) at 1. rewrite Hdiv, Hfmt.
    by rewrite <- !app_assoc.
  - intros Hn.
    destruct (format_1f_size n 20) as (x & t & Hdiv & Ht & Herr & Hfmt);
      [lia| change (2 ^ 20) with (1024 * 1024); lia | |].
    { assert (2 ^ 20 * (2 ^ 1024 - 2 ^ 970) = 2 ^ 1044 - 2 ^ 990) by reflexivity.
      lia. }
    exists t. split; [done|]. split; [done|].
    unfold format_file_size.
    rewrite (proj2 (Z.ltb_ge n 1024)), (proj2 (Z.ltb_ge n (1024 * 1024))) by lia.
    change (1024 * 1024) with (2 ^ 20) at 1. rewrite Hdiv, Hfmt.
    by rewrite <- !app_assoc.
Qed.

Lemma format_file_size_units_witness :
  ∃ t, 0 ≤ t ∧ Z.abs (20 * 1536 - 2 * 1024 * t) ≤ 1024 ∧
    format_file_size 1536 =
      Return (str_int (t / 10) ++ u"." ++ [digit (t mod 10)] ++ u" KB").
Proof.
  apply (proj1 (proj2 (proj2 (proj2 (proj2 (format_file_size_units 1536)))))).
  lia.
Defined.

(** C7 as the specification words it fails on sizes whose quotient by
    1024 * 1024 is no double: from 2^1044 - 2^990 on the division raises
    [OverflowError] and nothing is rendered. *)
Lemma format_file_size_overflow :
  format_file_size (2 ^ 1044 - 2 ^ 990) =
    Raise (Exn OverflowError (u"integer division result too large for a float")) ∧
  format_file_size (2 ^ 1044) =
    Raise (Exn OverflowError (u"integer division result too large for a float")).
Proof. split; vm_compute; reflexivity. Qed.

(** ** More on the character-set preparer *)

Section prepare_text_more.
Implicit Types (s : gset N) (text : pystr) (c : N).

Lemma StronglySorted_le_lt (l : list N) :
  StronglySorted N.le l → NoDup l → StronglySorted N.lt l.
Proof.
  induction 1 as [|x l Hl IH Hx]; intros Hnd; [constructor|].
  apply NoDup_cons in Hnd as [Hnotin Hnd].
  constructor; [by apply IH|].
  apply Forall_forall. intros y Hy.
  pose proof (proj1 (Forall_forall _ _) Hx y Hy) as Hle.
  assert (x ≠ y) by (intros ->; done). lia.
Qed.

Lemma pick_orb (b b' : bool) (S : gset N) :
  (if b || b' then S else ∅) = (if b then S else ∅) ∪ (if b' then S else ∅).
Proof.
  apply set_eq. intros c.
  destruct b, b'; simpl; rewrite ?elem_of_union, ?elem_of_empty; tauto.
Qed.

Lemma supplement_orb (b n p b' n' p' : bool) :
  supplement (b || b') (n || n') (p || p') =
    supplement b n p ∪ supplement b' n' p'.
Proof.
  unfold supplement. rewrite !pick_orb.
  generalize (list_to_set BASIC_LATIN : gset N)
    (list_to_set NUMBERS : gset N) (list_to_set PUNCTUATION : gset N).
  intros B D P. apply set_eq. intros c. rewrite !elem_of_union. tauto.
Qed.

Lemma size_list_to_set_le text :
  (size (list_to_set text : gset N) ≤ length text)%nat.
Proof.
  induction text as [|c text IH]; simpl.
  - vm_compute. lia.
  - rewrite size_union_alt, size_singleton.
    assert (size (list_to_set text ∖ {[c]} : gset N)
            ≤ size (list_to_set text : gset N))%nat
      by (apply subseteq_size; intros x Hx;
          by apply elem_of_difference in Hx as [? _]).
    lia.
Qed.

End prepare_text_more.

(** X1: the characters of the result of [prepare_text] are in strictly
    ascending order of code points. *)
Theorem prepare_text_strictly_ascending (text : pystr) (b n p : bool) :
  StronglySorted N.lt (prepare_text text b n p).
Proof.
  apply StronglySorted_le_lt; [apply prepare_text_ascending|].
  rewrite prepare_text_sorted_union. apply NoDup_sorted.
Qed.

(** X2: a character is in the result of [prepare_text] exactly when it is
    in the text or in a literal whose flag is set. *)
Theorem prepare_text_exact_characters (text : pystr) (b n p : bool) (c : N) :
  c ∈ prepare_text text b n p ↔
    c ∈ text ∨ (b = true ∧ c ∈ BASIC_LATIN) ∨ (n = true ∧ c ∈ NUMBERS) ∨
    (p = true ∧ c ∈ PUNCTUATION).
Proof.
  rewrite elem_of_prepare_text. unfold supplement.
  rewrite <- !(elem_of_list_to_set (C:=gset N) c).
  generalize (list_to_set text : gset N) (list_to_set BASIC_LATIN : gset N)
    (list_to_set NUMBERS : gset N) (list_to_set PUNCTUATION : gset N).
  intros T B D P. rewrite !elem_of_union.
  destruct b, n, p; rewrite ?elem_of_empty; intuition congruence.
Qed.

(** X3: applying [prepare_text] to its own result adds the literals of the
    new flags: the two calls amount to one call with the flags or-ed. *)
Theorem prepare_text_flags_accumulate (text : pystr) (b n p b' n' p' : bool) :
  prepare_text (prepare_text text b n p) b' n' p' =
    prepare_text text (b || b') (n || n') (p || p').
Proof.
  rewrite (prepare_text_sorted_union (prepare_text _ _ _ _)).
  rewrite !prepare_text_sorted_union, list_to_set_sorted, supplement_orb.
  f_equal. apply set_eq. intros c. rewrite !elem_of_union. tauto.
Qed.

(** X4: with the three flags off, a text without repeated characters comes
    back as a permutation of itself. *)
Theorem prepare_text_plain_permutation (text : pystr) :
  NoDup text → prepare_text text false false false ≡ₚ text.
Proof.
  intros Hnd. rewrite prepare_text_sorted_union, sorted_Permutation.
  replace (list_to_set text ∪ supplement false false false)
    with (list_to_set text : gset N).
  - by apply elements_list_to_set.
  - apply set_eq. intros c. unfold supplement.
    rewrite !elem_of_union, elem_of_empty. tauto.
Qed.

Lemma prepare_text_plain_permutation_witness :
  prepare_text KEEP_TEXT false false false ≡ₚ KEEP_TEXT.
Proof.
  apply prepare_text_plain_permutation. decide_by_computation.
Defined.

(** X5: the result of [prepare_text] is never longer than the text plus the
    59 characters of the three literals, and with the flags off never longer
    than the text. *)
Theorem prepare_text_length_bound (text : pystr) (b n p : bool) :
  (length (prepare_text text b n p) ≤ length text + 59)%nat ∧
  (length (prepare_text text false false false) ≤ length text)%nat.
Proof.
  pose proof (size_list_to_set_le text) as Htext.
  destruct supplement_census as (_ & _ & _ & _ & H59).
  split.
  - rewrite prepare_text_sorted_union, length_sorted.
    rewrite size_union_alt.
    assert (size (supplement b n p ∖ list_to_set text)
            ≤ size (supplement true true true))%nat.
    { apply subseteq_size. intros c Hc. apply elem_of_difference in Hc as [Hc _].
      revert Hc. by apply supplement_mono; destruct b, n, p. }
    lia.
  - rewrite prepare_text_sorted_union, length_sorted.
    replace (list_to_set text ∪ supplement false false false)
      with (list_to_set text : gset N); [done|].
    apply set_eq. intros c. unfold supplement.
    rewrite !elem_of_union, elem_of_empty. tauto.
Qed.

(** ** More on the file validator *)

Section Validation_more.
Context `{Platform}.

Lemma platform_Done {A} c (op : World → answer A * World) st a w :
  op (world st) = (Done a, w) →
  platform c op st = (Return a, State w (trace st ++ [c])).
Proof. intros Hop. unfold platform. by rewrite Hop. Qed.

Lemma platform_Failed {A} c (op : World → answer A * World) st cls msg w :
  op (world st) = (Failed cls msg, w) →
  platform c op st = (Raise (Exn (Foreign cls) msg), State w (trace st ++ [c])).
Proof. intros Hop. unfold platform. by rewrite Hop. Qed.

(** A call of the platform adds itself to the trace, whatever it answers. *)
Lemma platform_trace {A} c (op : World → answer A * World) st :
  trace (platform c op st).2 = trace st ++ [c] ∧
  ∀ code, (platform c op st).1 ≠ Exit code.
Proof.
  unfold platform. by destruct (op (world st)) as [[a|cls msg] w].
Qed.

Lemma validate_raises_kinds font_path :
  raises_only
    (λ e, NotFoundError e ∨ UnsupportedFormatError e ∨ InvalidFontError e)
    false (validate_font_file font_path).
Proof.
  unfold validate_font_file, exists_.
  apply raises_only_bind with (P := λ e, _).
  { intros st. unfold platform.
    by destruct (os_path_exists font_path (world st)). }
  intros found. destruct (negb found); [by apply raises_only_raise; left|].
  destruct (negb _).
  { apply raises_only_raise. right; left.
    apply unsupported_is_UnsupportedFormatError. }
  apply raises_only_try_except with (Q := λ _, True).
  - unfold validate_font_file_try, open_font, close. raises_only_step; done.
  - intros e _. apply raises_only_raise. right; right.
    apply invalid_is_InvalidFontError.
Qed.

Lemma validate_run font_path st :
  ∃ calls,
    trace (validate_font_file font_path st).2 = trace st ++ calls ∧
    calls `prefix_of` validate_calls font_path ∧ calls ≠ [] ∧
    (∀ v, (validate_font_file font_path st).1 = Return v →
       calls = validate_calls font_path).
Proof.
  unfold validate_font_file, exists_, mbind, M_bind, platform, validate_calls.
  destruct (os_path_exists font_path (world st)) as [found w]. simpl.
  destruct (negb found).
  { exists [call_exists font_path]. split_and!; [done|by eexists|done|done]. }
  destruct (negb _).
  { exists [call_exists font_path]. split_and!; [done|by eexists|done|done]. }
  unfold try_except, validate_font_file_try, mbind, M_bind, open_font, close,
    platform. simpl.
  destruct (TTFont_open font_path w) as [[font|cls msg] w1]; simpl.
  - destruct (TTFont_close font w1) as [[[]|cls msg] w2]; simpl;
      exists [call_exists font_path; call_TTFont font_path; call_close];
      (split_and!; [by rewrite <- !app_assoc|done|done|done]).
  - exists [call_exists font_path; call_TTFont font_path].
    split_and!; [by rewrite <- !app_assoc|by eexists|done|done].
Qed.

End Validation_more.

(** X6: on a path that exists, has a supported suffix and opens,
    [validate_font_file] closes the font before it ends: it returns [True]
    when the close succeeds and raises the invalid-font [ValueError] when
    the close fails; in both cases the calls are exists, open, close. *)
Theorem validate_font_file_closes `{Platform}
    (font_path : pystr) (st : state) (font : TTFont) (w : World) :
  (os_path_exists font_path (world st)).1 = true →
  str_lower (Path_suffix font_path) ∈ supported_formats →
  TTFont_open font_path (os_path_exists font_path (world st)).2 = (Done font, w) →
  (∀ w', TTFont_close font w = (Done tt, w') →
     validate_font_file font_path st =
       (Return true, State w' (trace st ++ validate_calls font_path))) ∧
  (∀ cls msg w', TTFont_close font w = (Failed cls msg, w') →
     validate_font_file font_path st =
       (Raise (Exn ValueError (msg_invalid (Exn (Foreign cls) msg))),
        State w' (trace st ++ validate_calls font_path))).
Proof.
  intros Hfound Hext Hopen.
  assert (Hrun : validate_font_file font_path st =
            try_except (validate_font_file_try font_path)
              (λ e, raise (Exn ValueError (msg_invalid e)))
              (State (os_path_exists font_path (world st)).2
                 (trace st ++ [call_exists font_path]))).
  { unfold validate_font_file.
    rewrite (bind_Return _ _ _ _ _ (exists_run font_path st)).
    rewrite Hfound. simpl. by rewrite bool_decide_eq_true_2. }
  rewrite Hrun.
  unfold try_except, validate_font_file_try, mbind, M_bind, open_font, close,
    platform, validate_calls.
  simpl. rewrite Hopen. simpl. split.
  - intros w' Hclose. rewrite Hclose. simpl. by rewrite <- !app_assoc.
  - intros cls msg w' Hclose. rewrite Hclose. simpl. by rewrite <- !app_assoc.
Qed.

(** X7: whatever [validate_font_file] raises is of one of the three kinds
    of the validation (no exception of fontTools escapes as it is), it never
    exits the interpreter, and the only value it returns is [True]. *)
Theorem validate_font_file_outcomes `{Platform} (font_path : pystr) :
  raises_only
    (λ e, NotFoundError e ∨ UnsupportedFormatError e ∨ InvalidFontError e)
    false (validate_font_file font_path) ∧
  ∀ st v st', validate_font_file font_path st = (Return v, st') → v = true.
Proof.
  split; [apply validate_raises_kinds|].
  intros st v st'. unfold validate_font_file, exists_, mbind, M_bind, platform.
  destruct (os_path_exists font_path (world st)) as [found w]. simpl.
  destruct (negb found); [done|]. destruct (negb _); [done|].
  unfold try_except, validate_font_file_try, mbind, M_bind, open_font, close,
    platform. simpl.
  destruct (TTFont_open font_path w) as [[font|cls msg] w1]; simpl; [|done].
  destruct (TTFont_close font w1) as [[[]|cls msg] w2]; simpl; [|done].
  by intros [= <- _].
Qed.

(** X8: the calls of [validate_font_file] are the first one, two or three
    of exists, open, close on the given path: it reads no other file, writes
    nothing and prints nothing; and it returns only after all three. *)
Theorem validate_font_file_calls `{Platform} (font_path : pystr) (st : state) :
  ∃ calls,
    trace (validate_font_file font_path st).2 = trace st ++ calls ∧
    calls `prefix_of` validate_calls font_path ∧ calls ≠ [] ∧
    Forall (reads_only font_path) calls ∧
    (∀ v, (validate_font_file font_path st).1 = Return v →
       calls = validate_calls font_path).
Proof.
  destruct (validate_run font_path st) as (calls & Htrace & Hprefix & Hne & Hret).
  exists calls. split_and!; [done..| |done].
  destruct Hprefix as [rest Hrest].
  assert (Forall (reads_only font_path) (validate_calls font_path)) as Hall
    by repeat constructor.
  rewrite Hrest in Hall. by apply Forall_app in Hall as [? _].
Qed.

(** ** More on the font info extractor *)

Section Info_more.
Context `{Platform}.

(** The loop decodes at most one record, and it neither exits nor returns
    after a failed decoding. *)
Lemma family_name_run records font_name st :
  ∃ decoded : bool,
    trace (family_name records font_name st).2 =
      trace st ++ (if decoded then [call_toUnicode] else []) ∧
    (∀ code, (family_name records font_name st).1 ≠ Exit code) ∧
    (decoded = false → family_name records font_name st = (Return font_name, st)).
Proof.
  induction records as [|record records IH]; simpl.
  - exists false. by rewrite app_nil_r.
  - destruct (nameID record =? 1); [|done].
    exists true. unfold to_unicode.
    destruct (platform_trace call_toUnicode (toUnicode record) st) as [-> Hne].
    done.
Qed.

Lemma info_calls_NoDup font_path decoded : NoDup (info_calls font_path decoded).
Proof.
  apply NoDup_ListNoDup.
  destruct decoded; repeat constructor; simpl; intuition discriminate.
Qed.

(** What holds of the first calls of a run of [get_font_info]. *)
Lemma info_calls_prefix font_path decoded calls :
  calls `prefix_of` info_calls font_path decoded →
  Forall (reads_only font_path) calls ∧
  (call_close ∈ calls → calls = info_calls font_path decoded).
Proof.
  intros [rest Hrest]. split.
  - assert (Forall (reads_only font_path) (info_calls font_path decoded)) as Hall
      by (destruct decoded; repeat constructor).
    rewrite Hrest in Hall. by apply Forall_app in Hall as [? _].
  - intros Hin. destruct rest as [|c rest _] using rev_ind.
    { by rewrite app_nil_r in Hrest. }
    exfalso.
    pose proof (info_calls_NoDup font_path decoded) as Hnd.
    assert (last (info_calls font_path decoded) = Some call_close) as Hlast
      by (by destruct decoded).
    rewrite Hrest in Hnd, Hlast.
    rewrite app_assoc, last_snoc in Hlast. injection Hlast as ->.
    apply NoDup_app in Hnd as (_ & Hdisj & _).
    apply (Hdisj call_close Hin). apply elem_of_app. right. by left.
Qed.

End Info_more.

(** X9: the loop over the name table takes the first record whose [nameID]
    is 1, decodes that one and looks no further; when no record has
    [nameID] 1 it keeps the given name and calls nothing. *)
Theorem family_name_first_match `{Platform}
    (records : list NameRecord) (font_name : pystr) (st : state) :
  (∀ before record after,
     records = before ++ record :: after →
     Forall (λ r, nameID r ≠ 1) before → nameID record = 1 →
     family_name records font_name st = to_unicode record st) ∧
  (Forall (λ r, nameID r ≠ 1) records →
     family_name records font_name st = (Return font_name, st)).
Proof.
  split.
  - intros before record after -> Hbefore Hrecord.
    induction Hbefore as [|r before Hr _ IH]; simpl.
    + by rewrite (proj2 (Z.eqb_eq _ _) Hrecord).
    + by rewrite (proj2 (Z.eqb_neq _ _) Hr).
  - induction 1 as [|r records Hr _ IH]; simpl; [done|].
    by rewrite (proj2 (Z.eqb_neq _ _) Hr).
Qed.

(** X10: the character count of an info that [get_font_info] returns is
    never negative. *)
Theorem get_font_info_char_count_nonneg `{Platform}
    (font_path : pystr) (st : state) (info : font_info) (st' : state) :
  get_font_info font_path st = (Return info, st') →
  0 ≤ info_char_count info.
Proof.
  assert (Hlen : ∀ cmap, 0 ≤ cmap_len cmap).
  { intros [d|]; simpl; [|done]. case_bool_decide; lia. }
  unfold get_font_info, try_except, get_font_info_try, mbind, M_bind.
  destruct (open_font font_path st) as [[font|e|c] st1];
    [|by intros [= <- _]|done].
  destruct (names font st1) as [[records|e|c] st2];
    [|by intros [= <- _]|done].
  destruct (family_name records _ st2) as [[font_name|e|c] st3];
    [|by intros [= <- _]|done].
  destruct (getBestCmap font st3) as [[cmap|e|c] st4];
    [|by intros [= <- _]|done].
  destruct (getsize font_path st4) as [[file_size|e|c] st5];
    [|by intros [= <- _]|done].
  destruct (close font st5) as [[[]|e|c] st6];
    [|by intros [= <- _]|done].
  simpl. intros [= <- _]. apply Hlen.
Qed.

(** X11: the calls of [get_font_info] are the first ones of: open, name
    table, at most one decoding, character map, size, close, all on the
    given path.  So it writes and prints nothing, and it closes the font
    only when every read before succeeded: after a failed read the font is
    left open. *)
Theorem get_font_info_calls `{Platform} (font_path : pystr) (st : state) :
  ∃ (decoded : bool) calls,
    trace (get_font_info font_path st).2 = trace st ++ calls ∧
    calls `prefix_of` info_calls font_path decoded ∧ calls ≠ [] ∧
    Forall (reads_only font_path) calls ∧
    (call_close ∈ calls → calls = info_calls font_path decoded) ∧
    (∀ info st', get_font_info_try font_path st = (Return info, st') →
       calls = info_calls font_path decoded).
Proof.
  assert (Hgoal : ∀ (decoded : bool) calls st',
            trace st' = trace st ++ calls →
            calls `prefix_of` info_calls font_path decoded → calls ≠ [] →
            (∀ info st'', get_font_info_try font_path st = (Return info, st'') →
               calls = info_calls font_path decoded) →
            ∃ (decoded : bool) calls,
              trace st' = trace st ++ calls ∧
              calls `prefix_of` info_calls font_path decoded ∧ calls ≠ [] ∧
              Forall (reads_only font_path) calls ∧
              (call_close ∈ calls → calls = info_calls font_path decoded) ∧
              (∀ info st'', get_font_info_try font_path st = (Return info, st'') →
                 calls = info_calls font_path decoded)).
  { intros decoded calls st' Htrace Hprefix Hne Hret. exists decoded, calls.
    destruct (info_calls_prefix _ _ _ Hprefix). by split_and!. }
  unfold get_font_info, try_except.
  assert (Hbody : get_font_info_try font_path =
            (font ← open_font font_path;
             records ← names font;
             font_name ← family_name records (of_string "Unknown");
             cmap ← getBestCmap font;
             file_size ← getsize font_path;
             _ ← close font;
             mret (FontInfo font_name (cmap_len cmap) file_size))) by done.
  revert Hgoal. rewrite Hbody. clear Hbody. intros Hgoal.
  unfold mbind, M_bind in *.
  unfold open_font in *.
  destruct (platform_trace (call_TTFont font_path) (TTFont_open font_path) st)
    as [Ht1 Hx1].
  destruct (platform _ (TTFont_open font_path) st) as [[font|e|c] st1];
    simpl in *; [| |by destruct (Hx1 c)].
  2: { apply (Hgoal false [call_TTFont font_path]); [done|by eexists|done..]. }
  unfold names in *.
  destruct (platform_trace call_names (TTFont_name_names font) st1) as [Ht2 Hx2].
  destruct (platform _ (TTFont_name_names font) st1) as [[records|e|c] st2];
    simpl in *; [| |by destruct (Hx2 c)].
  2: { apply (Hgoal false [call_TTFont font_path; call_names]);
         [by rewrite Ht2, Ht1, <- app_assoc|by eexists|done..]. }
  destruct (family_name_run records (of_string "Unknown") st2)
    as (decoded & Ht3 & Hx3 & _).
  destruct (family_name records _ st2) as [[font_name|e|c] st3];
    simpl in *; [| |by destruct (Hx3 c)].
  2: { apply (Hgoal decoded
                ([call_TTFont font_path; call_names] ++
                 (if decoded then [call_toUnicode] else [])));
         [by rewrite Ht3, Ht2, Ht1, <- !app_assoc|by eexists|done..]. }
  unfold getBestCmap in *.
  destruct (platform_trace call_getBestCmap (TTFont_getBestCmap font) st3)
    as [Ht4 Hx4].
  destruct (platform _ (TTFont_getBestCmap font) st3) as [[cmap|e|c] st4];
    simpl in *; [| |by destruct (Hx4 c)].
  2: { apply (Hgoal decoded
                ([call_TTFont font_path; call_names] ++
                 (if decoded then [call_toUnicode] else []) ++
                 [call_getBestCmap]));
         [by rewrite Ht4, Ht3, Ht2, Ht1, <- !app_assoc| |by destruct decoded|done].
       exists [call_getsize font_path; call_close].
       unfold info_calls. by rewrite <- !app_assoc. }
  unfold getsize in *.
  destruct (platform_trace (call_getsize font_path) (os_path_getsize font_path) st4)
    as [Ht5 Hx5].
  destruct (platform _ (os_path_getsize font_path) st4) as [[file_size|e|c] st5];
    simpl in *; [| |by destruct (Hx5 c)].
  2: { apply (Hgoal decoded
                ([call_TTFont font_path; call_names] ++
                 (if decoded then [call_toUnicode] else []) ++
                 [call_getBestCmap; call_getsize font_path]));
         [by rewrite Ht5, Ht4, Ht3, Ht2, Ht1, <- !app_assoc| |by destruct decoded|done].
       exists [call_close]. unfold info_calls. by rewrite <- !app_assoc. }
  unfold close in *.
  destruct (platform_trace call_close (TTFont_close font) st5) as [Ht6 Hx6].
  assert (Hfull : trace (platform call_close (TTFont_close font) st5).2 =
                    trace st ++ info_calls font_path decoded).
  { rewrite Ht6, Ht5, Ht4, Ht3, Ht2, Ht1. unfold info_calls.
    by rewrite <- !app_assoc. }
  destruct (platform _ (TTFont_close font) st5) as [[[]|e|c] st6];
    simpl in *; [| |by destruct (Hx6 c)];
    (apply (Hgoal decoded (info_calls font_path decoded));
       [done|done|by destruct decoded|done]).
Qed.

(** ** More on the subsetter *)

Section Subsetting_more.
Context `{Platform}.

Lemma subset_font_try_run input_path output_path text st :
  ∃ calls,
    trace (subset_font_try input_path output_path text st).2 = trace st ++ calls ∧
    calls `prefix_of` subset_try_calls input_path output_path text ∧
    (∀ code, (subset_font_try input_path output_path text st).1 ≠ Exit code) ∧
    (∀ v, (subset_font_try input_path output_path text st).1 = Return v →
       v = true ∧ calls = subset_try_calls input_path output_path text).
Proof.
  assert (Hbody : subset_font_try input_path output_path text =
            (font ← open_font input_path;
             subsetter ← new_subsetter;
             _ ← populate subsetter text;
             _ ← subset subsetter font;
             _ ← save font output_path;
             _ ← close font;
             mret true)) by done.
  rewrite Hbody. clear Hbody. unfold mbind, M_bind, subset_try_calls.
  unfold open_font.
  destruct (platform_trace (call_TTFont input_path) (TTFont_open input_path) st)
    as [Ht1 Hx1].
  destruct (platform _ (TTFont_open input_path) st) as [[font|e|c] st1];
    simpl in *; [| |by destruct (Hx1 c)].
  2: { exists [call_TTFont input_path]. split_and!; [done|by eexists|done..]. }
  unfold new_subsetter.
  destruct (platform_trace call_Subsetter Subsetter_new st1) as [Ht2 Hx2].
  destruct (platform _ Subsetter_new st1) as [[subsetter|e|c] st2];
    simpl in *; [| |by destruct (Hx2 c)].
  2: { exists [call_TTFont input_path; call_Subsetter].
       split_and!; [by rewrite Ht2, Ht1, <- !app_assoc|by eexists|done..]. }
  unfold populate.
  destruct (platform_trace (call_populate text) (Subsetter_populate subsetter text) st2)
    as [Ht3 Hx3].
  destruct (platform _ (Subsetter_populate subsetter text) st2) as [[[]|e|c] st3];
    simpl in *; [| |by destruct (Hx3 c)].
  2: { exists [call_TTFont input_path; call_Subsetter; call_populate text].
       split_and!; [by rewrite Ht3, Ht2, Ht1, <- !app_assoc|by eexists|done..]. }
  unfold subset.
  destruct (platform_trace call_subset (Subsetter_subset subsetter font) st3)
    as [Ht4 Hx4].
  destruct (platform _ (Subsetter_subset subsetter font) st3) as [[[]|e|c] st4];
    simpl in *; [| |by destruct (Hx4 c)].
  2: { exists [call_TTFont input_path; call_Subsetter; call_populate text;
               call_subset].
       split_and!; [by rewrite Ht4, Ht3, Ht2, Ht1, <- !app_assoc|by eexists|done..]. }
  unfold save.
  destruct (platform_trace (call_save output_path) (TTFont_save font output_path) st4)
    as [Ht5 Hx5].
  destruct (platform _ (TTFont_save font output_path) st4) as [[[]|e|c] st5];
    simpl in *; [| |by destruct (Hx5 c)].
  2: { exists [call_TTFont input_path; call_Subsetter; call_populate text;
               call_subset; call_save output_path].
       split_and!;
         [by rewrite Ht5, Ht4, Ht3, Ht2, Ht1, <- !app_assoc|by eexists|done..]. }
  unfold close.
  destruct (platform_trace call_close (TTFont_close font) st5) as [Ht6 Hx6].
  destruct (platform _ (TTFont_close font) st5) as [[[]|e|c] st6];
    simpl in *; [| |by destruct (Hx6 c)];
    (exists [call_TTFont input_path; call_Subsetter; call_populate text;
             call_subset; call_save output_path; call_close];
     split_and!;
       [by rewrite Ht6, Ht5, Ht4, Ht3, Ht2, Ht1, <- !app_assoc|done|done|]).
  - by intros v [= <-].
  - done.
Qed.

Lemma subset_font_run input_path output_path text st :
  ∃ calls,
    trace (subset_font input_path output_path text st).2 = trace st ++ calls ∧
    calls `prefix_of` subset_calls input_path output_path text ∧ calls ≠ [] ∧
    (∀ v, (subset_font input_path output_path text st).1 = Return v →
       v = true ∧ calls = subset_calls input_path output_path text).
Proof.
  destruct (validate_run input_path st) as (calls1 & Ht1 & Hp1 & Hne1 & Hret1).
  unfold subset_font, mbind, M_bind.
  destruct (validate_font_file input_path st) as [[v|e|c] st1]; simpl in Ht1, Hret1 |- *.
  - specialize (Hret1 v eq_refl). subst calls1.
    destruct (subset_font_try_run input_path output_path text st1)
      as (calls2 & Ht2 & Hp2 & Hx2 & Hret2).
    exists (validate_calls input_path ++ calls2).
    unfold try_except.
    destruct (subset_font_try input_path output_path text st1)
      as [[v2|e|c] st2]; simpl in Ht2, Hx2, Hret2 |- *.
    + destruct (Hret2 v2 eq_refl) as [-> ->].
      split_and!; [by rewrite Ht2, Ht1, <- !app_assoc|done|done|].
      by intros ? [= <-].
    + split_and!; [by rewrite Ht2, Ht1, <- !app_assoc| |done|done].
      destruct Hp2 as [rest Hrest]. exists rest.
      unfold subset_calls. rewrite Hrest. reflexivity.
    + by destruct (Hx2 c).
  - exists calls1. split_and!; [done| |done|done].
    by apply prefix_app_r.
  - exists calls1. split_and!; [done| |done|done].
    by apply prefix_app_r.
Qed.

End Subsetting_more.

(** X12: the calls of [subset_font] are the first ones of: exists, open and
    close of the validation, then open of the input, creation of the
    subsetter, populate with the given text, subset, save to the output
    path, close.  So nothing is saved unless the validation and the
    subsetting went through, nothing is saved elsewhere than to the output
    path, and [True] is returned only after the whole sequence. *)
Theorem subset_font_calls `{Platform}
    (input_path output_path text : pystr) (st : state) :
  ∃ calls,
    trace (subset_font input_path output_path text st).2 = trace st ++ calls ∧
    calls `prefix_of` subset_calls input_path output_path text ∧ calls ≠ [] ∧
    (∀ path, call_save path ∈ calls →
       path = output_path ∧ call_subset ∈ calls ∧ call_populate text ∈ calls) ∧
    (∀ v, (subset_font input_path output_path text st).1 = Return v →
       v = true ∧ calls = subset_calls input_path output_path text).
Proof.
  destruct (subset_font_run input_path output_path text st)
    as (calls & Htrace & Hprefix & Hne & Hret).
  exists calls. split_and!; [done..| |done].
  intros path Hin. destruct Hprefix as [rest Hrest].
  unfold subset_calls, validate_calls in Hrest. simpl in Hrest.
  do 8 (destruct calls as [|? calls];
        [by repeat (apply elem_of_cons in Hin as [?|Hin]; [done|]);
            apply elem_of_nil in Hin|
         injection Hrest as <- Hrest]).
  repeat (apply elem_of_cons in Hin as [Hin|Hin]; [try done|]).
  - injection Hin as ->.
    split_and!; [done|..];
      apply list_elem_of_In; simpl;
      repeat first [left; reflexivity|right].
  - destruct calls as [|? calls]; [by apply elem_of_nil in Hin|].
    injection Hrest as <- Hrest.
    apply elem_of_cons in Hin as [?|Hin]; [done|].
    destruct calls; [by apply elem_of_nil in Hin|done].
Qed.

(** X13: whatever [subset_font] raises is of one of the four kinds of the
    program (not found, unsupported format, invalid font, subset failure);
    it never exits the interpreter. *)
Theorem subset_font_outcomes `{Platform} (input_path output_path text : pystr) :
  raises_only program_error false (subset_font input_path output_path text).
Proof.
  unfold subset_font.
  apply raises_only_bind.
  { eapply raises_only_weaken; [|apply validate_raises_kinds].
    intros e [?|[?|?]]; [by left|by right; left|by right; right; left]. }
  intros _. apply raises_only_try_except with (Q := λ _, True).
  - unfold subset_font_try, open_font, new_subsetter, populate, subset, save, close.
    raises_only_step; done.
  - intros e _. apply raises_only_raise.
    repeat right. apply subset_failed_is_SubsetFailureError.
Qed.

(** ** More on sizes and on the size reduction *)

Section Sizes_more.
Implicit Types (n : Z).

(** A positive int divided by itself is the double 1. *)
Lemma round_double_diag n : 0 < n → round_double n n = Finite (2 ^ 52) (-52).
Proof.
  intros Hn. unfold round_double.
  rewrite (proj2 (Z.eqb_neq n 0)) by lia.
  rewrite Z.abs_eq, Z.sub_diag by lia.
  change (- 0) with 0. change (Z.max 0 0) with 0.
  rewrite Z.pow_0_r, Z.mul_1_r, Z.ltb_irrefl.
  change (Z.max (0 - 52) (-1074)) with (-52).
  change (Z.max 0 (- -52)) with 52. change (Z.max 0 (-52)) with 0.
  rewrite Z.pow_0_r, Z.mul_1_r, round_half_even_exact by done.
  change (0 <=? -52) with false. cbv beta iota delta [andb].
  by rewrite Z.sgn_pos, Z.mul_1_l by done.
Qed.

Lemma truediv_diag n : 0 < n → truediv n n = Return (Finite (2 ^ 52) (-52)).
Proof.
  intros Hn. unfold truediv. rewrite (proj2 (Z.eqb_neq n 0)) by lia.
  by rewrite Z.sgn_pos, Z.mul_1_r, Z.abs_eq, round_double_diag by lia.
Qed.

Lemma truediv_zero n : n ≠ 0 → truediv 0 n = Return (Finite 0 0).
Proof.
  intros Hn. unfold truediv. rewrite (proj2 (Z.eqb_neq n 0)) by lia.
  by rewrite Z.mul_0_l.
Qed.

End Sizes_more.

(** X14: a size from 1048525 to 1048575 bytes, just below the second
    threshold, is rendered in kilobytes and rounds up to 1024.0 KB. *)
Theorem format_file_size_just_below_MB (n : Z) :
  1048525 ≤ n < 1048576 → format_file_size n = Return (u"1024.0 KB").
Proof.
  intros Hn.
  destruct (format_1f_size n 10) as (x & t & Hdiv & Ht & Herr & Hfmt);
    [lia|change (2 ^ 10) with 1024; lia| |].
  { assert (1048576 < 2 ^ 10 * (2 ^ 1024 - 2 ^ 970)) by reflexivity. lia. }
  assert (n < 2 ^ 53) as Hsmall
    by (assert (1048576 < 2 ^ 53) by reflexivity; lia).
  specialize (Herr Hsmall). change (2 ^ 10) with 1024 in Herr, Hdiv.
  assert (t = 10240) as -> by lia.
  unfold format_file_size.
  rewrite (proj2 (Z.ltb_ge n 1024)), (proj2 (Z.ltb_lt n (1024 * 1024))) by lia.
  rewrite Hdiv, Hfmt. vm_compute. reflexivity.
Qed.

Lemma format_file_size_just_below_MB_witness :
  format_file_size 1048575 = Return (u"1024.0 KB").
Proof. apply format_file_size_just_below_MB. lia. Defined.

(** X15: for a positive original size, the line of the size reduction reads
    100.0% when the subset file is empty and 0.0% when the two sizes are
    equal. *)
Theorem report_size_reduction_extremes `{Platform}
    (original_info subset_info : font_info) (st : state) :
  0 < info_file_size original_info →
  (info_file_size subset_info = 0 →
     report_size_reduction original_info subset_info st =
       print (u"  大小减少: 100.0%") st) ∧
  (info_file_size subset_info = info_file_size original_info →
     report_size_reduction original_info subset_info st =
       print (u"  大小减少: 0.0%") st).
Proof.
  intros Hpos. unfold report_size_reduction.
  rewrite (proj2 (Z.gtb_gt _ _)) by lia.
  unfold mbind, M_bind, lift. split.
  - intros ->. rewrite truediv_zero by lia. reflexivity.
  - intros ->. rewrite truediv_diag by done. reflexivity.
Qed.

Lemma report_size_reduction_extremes_witness :
  report_size_reduction (FontInfo (u"Demo Song") 6 5000)
      (FontInfo (u"Demo Song") 6 5000) (Demo.start Demo.good_disk) =
    print (u"  大小减少: 0.0%") (Demo.start Demo.good_disk).
Proof.
  apply (report_size_reduction_extremes (FontInfo (u"Demo Song") 6 5000)
           (FontInfo (u"Demo Song") 6 5000)); [done|reflexivity].
Defined.

(** ** More on the driver *)

Section Calls.
Context `{Platform}.

Lemma calls_only_ret {A} P (a : A) : calls_only P (mret a).
Proof. intros st. exists []. by rewrite app_nil_r. Qed.

Lemma calls_only_raise {A} P e : calls_only P (raise (A:=A) e).
Proof. intros st. exists []. by rewrite app_nil_r. Qed.

Lemma calls_only_sys_exit {A} P code : calls_only P (sys_exit (A:=A) code).
Proof. intros st. exists []. by rewrite app_nil_r. Qed.

Lemma calls_only_lift {A} P (o : outcome A) : calls_only P (lift o).
Proof. intros st. exists []. by rewrite app_nil_r. Qed.

Lemma calls_only_platform {A} (P : call → Prop) c (op : World → answer A * World) :
  P c → calls_only P (platform c op).
Proof.
  intros Hc st. exists [c]. split; [apply platform_trace|by constructor].
Qed.

Lemma calls_only_bind {A B} P (m : M A) (k : A → M B) :
  calls_only P m → (∀ a, calls_only P (k a)) → calls_only P (m ≫= k).
Proof.
  intros Hm Hk st. destruct (Hm st) as (calls1 & Ht1 & Hall1).
  unfold mbind, M_bind.
  destruct (m st) as [[a|e|c] st1]; simpl in *; [|by eauto..].
  destruct (Hk a st1) as (calls2 & Ht2 & Hall2).
  exists (calls1 ++ calls2). split; [by rewrite Ht2, Ht1, app_assoc|].
  by apply Forall_app.
Qed.

Lemma calls_only_try_except {A} P (body : M A) handler :
  calls_only P body → (∀ e, calls_only P (handler e)) →
  calls_only P (try_except body handler).
Proof.
  intros Hb Hh st. destruct (Hb st) as (calls1 & Ht1 & Hall1).
  unfold try_except.
  destruct (body st) as [[a|e|c] st1]; simpl in *; [by eauto| |by eauto].
  destruct (Hh e st1) as (calls2 & Ht2 & Hall2).
  exists (calls1 ++ calls2). split; [by rewrite Ht2, Ht1, app_assoc|].
  by apply Forall_app.
Qed.

Lemma calls_only_weaken {A} (P Q : call → Prop) (m : M A) :
  (∀ c, P c → Q c) → calls_only P m → calls_only Q m.
Proof.
  intros HPQ Hm st. destruct (Hm st) as (calls & Ht & Hall).
  exists calls. split; [done|]. by eapply Forall_impl.
Qed.

Lemma calls_only_print P line :
  (∀ l, P (call_print l)) → calls_only P (print line).
Proof. intros HP. by apply calls_only_platform. Qed.

Lemma family_name_calls_only P records font_name :
  P call_toUnicode → calls_only P (family_name records font_name).
Proof.
  intros HP. induction records as [|record records IH]; simpl.
  - apply calls_only_ret.
  - destruct (nameID record =? 1); [by apply calls_only_platform|done].
Qed.

Lemma get_font_info_calls_only font_path :
  calls_only (reads_only font_path) (get_font_info font_path).
Proof.
  unfold get_font_info. apply calls_only_try_except; [|intros; apply calls_only_ret].
  unfold get_font_info_try, open_font, names, getBestCmap, getsize, close.
  repeat first
    [ apply calls_only_ret
    | by apply calls_only_platform
    | by apply family_name_calls_only
    | apply calls_only_bind; [|intros ?] ].
Qed.

Lemma validate_font_file_calls_only font_path :
  calls_only (reads_only font_path) (validate_font_file font_path).
Proof.
  unfold validate_font_file, exists_.
  apply calls_only_bind; [by apply calls_only_platform|]. intros found.
  destruct (negb found); [apply calls_only_raise|].
  destruct (negb _); [apply calls_only_raise|].
  apply calls_only_try_except; [|intros; apply calls_only_raise].
  unfold validate_font_file_try, open_font, close.
  repeat first
    [ apply calls_only_ret
    | by apply calls_only_platform
    | apply calls_only_bind; [|intros ?] ].
Qed.

Lemma main_call_reads font_path c :
  font_path = INPUT_FONT ∨ font_path = OUTPUT_FONT →
  reads_only font_path c → main_call c.
Proof. intros Hpath. destruct c; simpl; try done; by intros ->. Qed.

Lemma subset_font_calls_only :
  calls_only main_call
    (subset_font INPUT_FONT OUTPUT_FONT
       (prepare_text KEEP_TEXT KEEP_BASIC_LATIN KEEP_NUMBERS KEEP_PUNCTUATION)).
Proof.
  unfold subset_font. apply calls_only_bind.
  { eapply calls_only_weaken; [|apply validate_font_file_calls_only].
    intros c. apply main_call_reads. by left. }
  intros _. apply calls_only_try_except; [|intros; apply calls_only_raise].
  unfold subset_font_try, open_font, new_subsetter, populate, subset, save, close.
  repeat first
    [ apply calls_only_ret
    | apply calls_only_platform; simpl; by auto
    | apply calls_only_bind; [|intros ?] ].
Qed.

Lemma report_result_calls_only original_info :
  calls_only main_call (report_result original_info).
Proof.
  unfold report_result, report_size_reduction, exists_, abspath.
  apply calls_only_bind; [apply calls_only_platform; simpl; by auto|].
  intros written. destruct written; [|by apply calls_only_print].
  apply calls_only_bind.
  { eapply calls_only_weaken; [|apply get_font_info_calls_only].
    intros c. apply main_call_reads. by right. }
  intros subset_info.
  repeat first
    [ apply calls_only_ret
    | apply calls_only_lift
    | by apply calls_only_print
    | apply calls_only_platform; simpl; by auto
    | apply calls_only_bind; [|intros ?]
    | match goal with |- calls_only _ (if ?b then _ else _) => destruct b end ].
Qed.

Lemma main_try_calls_only : calls_only main_call main_try.
Proof.
  unfold main_try, exists_.
  do 2 (apply calls_only_bind; [by apply calls_only_print|intros _]).
  apply calls_only_bind; [apply calls_only_platform; simpl; by auto|].
  intros found. destruct (negb found).
  { apply calls_only_bind; [|intros _]; by apply calls_only_print. }
  do 5 (apply calls_only_bind; [by apply calls_only_print|intros _]).
  apply calls_only_bind.
  { eapply calls_only_weaken; [|apply get_font_info_calls_only].
    intros c. apply main_call_reads. by left. }
  intros original_info.
  do 2 (apply calls_only_bind; [by apply calls_only_print|intros _]).
  apply calls_only_bind; [apply calls_only_lift|intros size_text].
  do 4 (apply calls_only_bind; [by apply calls_only_print|intros _]).
  apply calls_only_bind; [apply subset_font_calls_only|intros _].
  apply report_result_calls_only.
Qed.

End Calls.

(** X16: [main] ends in one of three ways.  It returns when its body
    returned; it exits, always with status 1, when the body raised and the
    line of the error was printed; it raises only when printing that line
    failed. *)
Theorem main_outcomes `{Platform} (st : state) :
  (∀ v st', main st = (Return v, st') → main_try st = (Return v, st')) ∧
  (∀ code st', main st = (Exit code, st') →
     code = 1 ∧
     ∃ e st1, main_try st = (Raise e, st1) ∧
       print (u"❌ 错误: " ++ exn_str e) st1 = (Return tt, st')) ∧
  (∀ e' st', main st = (Raise e', st') →
     ∃ e st1, main_try st = (Raise e, st1) ∧
       print (u"❌ 错误: " ++ exn_str e) st1 = (Raise e', st')).
Proof.
  pose proof (main_try_raises_only st) as Hbody.
  unfold main, try_except, mbind, M_bind.
  destruct (main_try st) as [[[]|e|c] st1]; simpl in *; [|clear Hbody|done].
  - split_and!; [by intros [] st' [= <-]|done|done].
  - assert (∀ code, (print (u"❌ 错误: " ++ exn_str e) st1).1 ≠ Exit code) as Hx
      by apply platform_trace.
    destruct (print _ st1) as [[[]|e1|c1] st2] eqn:Hprint; simpl in *;
      [| |by destruct (Hx c1)].
    + split_and!; [done| |done].
      intros code st' [= <- <-]. split; [done|]. by exists e, st1.
    + split_and!; [done|done|].
      intros e' st' [= <- <-]. by exists e, st1.
Qed.

(** X17: every call of a run of [main] is a print, a read of the configured
    input or output path, a call on a font or subsetter object, a populate
    with the prepared text, an abspath of the output path or a save to the
    output path: no other path is read and nothing else is written. *)
Theorem main_calls `{Platform} : calls_only main_call main.
Proof.
  unfold main. apply calls_only_try_except; [apply main_try_calls_only|].
  intros e. apply calls_only_bind; [by apply calls_only_print|].
  intros _. apply calls_only_sys_exit.
Qed.

(** X18: when the input path does not exist at the check of line 151,
    [main] opens no font and writes nothing: all that follows is prints. *)
Theorem main_missing_input `{Platform} (st st1 st2 st3 : state) :
  print (u"🔤 TTF 字体裁剪工具") st = (Return tt, st1) →
  print (str_mul (u"=") 50) st1 = (Return tt, st2) →
  exists_ INPUT_FONT st2 = (Return false, st3) →
  ∃ calls, trace (main st).2 = trace st3 ++ calls ∧ Forall is_print calls.
Proof.
  intros H1 H2 H3.
  assert (Hrest : calls_only is_print
            (try_except
               (_ ← print (u"❌ 输入字体文件不存在: " ++ INPUT_FONT);
                print (u"请修改脚本中的 INPUT_FONT 变量为正确的文件路径"))
               (λ e, _ ← print (u"❌ 错误: " ++ exn_str e); sys_exit 1))).
  { apply calls_only_try_except.
    - apply calls_only_bind; [|intros _]; by apply calls_only_print.
    - intros e. apply calls_only_bind; [by apply calls_only_print|].
      intros _. apply calls_only_sys_exit. }
  destruct (Hrest st3) as (calls & Htrace & Hall).
  assert (Hmain : main st =
            try_except
              (_ ← print (u"❌ 输入字体文件不存在: " ++ INPUT_FONT);
               print (u"请修改脚本中的 INPUT_FONT 变量为正确的文件路径"))
              (λ e, _ ← print (u"❌ 错误: " ++ exn_str e); sys_exit 1) st3).
  { unfold main, try_except, main_try.
    rewrite (bind_Return _ _ _ _ _ H1), (bind_Return _ _ _ _ _ H2),
      (bind_Return _ _ _ _ _ H3). reflexivity. }
  exists calls. by rewrite Hmain.
Qed.

(** ** The script *)

Section Script_facts.
Context `{Terminal}.

Lemma imported_run st :
  imported st =
    (Return (import_fonttools (world st)).1,
     State (import_fonttools (world st)).2 (trace st)).
Proof. unfold imported. by destruct (import_fonttools (world st)). Qed.

Lemma input_run prompt st :
  input prompt st =
    (Return (console_input prompt (world st)).1,
     State (console_input prompt (world st)).2 (trace st)).
Proof. unfold input. by destruct (console_input prompt (world st)). Qed.

Lemma calls_only_imported P : calls_only P imported.
Proof. intros st. exists []. by rewrite imported_run, app_nil_r. Qed.

Lemma check_fonttools_calls_only : calls_only is_print check_fonttools.
Proof.
  unfold check_fonttools.
  apply calls_only_bind; [apply calls_only_imported|]. intros ok.
  destruct (negb ok); [|apply calls_only_ret].
  do 2 (apply calls_only_bind; [by apply calls_only_print|intros _]).
  apply calls_only_sys_exit.
Qed.

Lemma show_configuration_calls_only : calls_only is_print show_configuration.
Proof.
  unfold show_configuration.
  do 4 (apply calls_only_bind; [by apply calls_only_print|intros _]).
  by apply calls_only_print.
Qed.

End Script_facts.

(** X19: in a run of the script, unless the prompt was reached and a line
    was typed there whose lower-cased, stripped text is one of y, yes, 是
    or empty, nothing but prints is called: after any other answer, an
    interrupt, a closed input, a failed print or a missing fontTools, no
    file is read and none is written in that run. *)
Theorem script_prints_only_unless_confirmed `{Terminal} (st : state) :
  (∀ st1 st2 line w,
     check_fonttools st = (Return tt, st1) →
     show_configuration st1 = (Return tt, st2) →
     console_input PROMPT (world st2) = (Typed line, w) →
     str_strip (str_lower line) ∉ AFFIRMATIVE) →
  ∃ calls, trace (script st).2 = trace st ++ calls ∧ Forall is_print calls.
Proof.
  intros Hdeclined.
  assert (Hscript : script st =
            match check_fonttools st with
            | (Return _, st1) =>
                match show_configuration st1 with
                | (Return _, st2) => confirm_and_run st2
                | (Raise e, st2) => (Raise e, st2)
                | (Exit c, st2) => (Exit c, st2)
                end
            | (Raise e, st1) => (Raise e, st1)
            | (Exit c, st1) => (Exit c, st1)
            end).
  { unfold script, mbind, M_bind. destruct (check_fonttools st) as [[[]|e|c] st1];
      [|done..]. by destruct (show_configuration st1) as [[[]|e|c] st2]. }
  rewrite Hscript. clear Hscript.
  destruct (check_fonttools_calls_only st) as (calls1 & Ht1 & Hall1).
  destruct (check_fonttools st) as [[[]|e|c] st1] eqn:Hcheck;
    simpl in Ht1; [|by eauto..].
  destruct (show_configuration_calls_only st1) as (calls2 & Ht2 & Hall2).
  destruct (show_configuration st1) as [[[]|e|c] st2] eqn:Hshow; simpl in Ht2.
  2, 3: by exists (calls1 ++ calls2); simpl;
          rewrite Ht2, Ht1, app_assoc, Forall_app.
  assert (Hprint : ∀ line w,
            ∃ calls, trace (print line (State w (trace st2))).2 = trace st ++ calls ∧
                     Forall is_print calls).
  { intros line w. exists (calls1 ++ calls2 ++ [call_print line]).
    split; [|by rewrite !Forall_app; split_and!; [..|repeat constructor]].
    unfold print.
    destruct (platform_trace (call_print line) (console_print line)
                (State w (trace st2))) as [-> _].
    simpl. by rewrite Ht2, Ht1, <- !app_assoc. }
  unfold confirm_and_run.
  rewrite (bind_Return _ _ _ _ _ (input_run PROMPT st2)).
  destruct (console_input PROMPT (world st2)) as [[line| |cls msg] w] eqn:Hinput;
    simpl.
  - rewrite bool_decide_eq_false_2 by (by eapply Hdeclined). apply Hprint.
  - apply Hprint.
  - exists (calls1 ++ calls2). simpl.
    by rewrite Ht2, Ht1, app_assoc, Forall_app.
Qed.

(** X20: when the import of fontTools fails, the script prints its two
    lines of advice and then exits with status 1, the trace having grown by
    exactly these two prints; when the first or the second of them fails it
    raises that failure instead.  It never returns and never reaches the
    prompt. *)
Theorem script_without_fonttools `{Terminal} (st : state) :
  (import_fonttools (world st)).1 = false →
  let st0 := State (import_fonttools (world st)).2 (trace st) in
  let advice1 := u"错误: 请先安装 fonttools" in
  let advice2 := u"运行: pip install fonttools" in
  (∀ st1 st2,
     print advice1 st0 = (Return tt, st1) →
     print advice2 st1 = (Return tt, st2) →
     script st = (Exit 1, st2) ∧
     trace st2 = trace st ++ [call_print advice1; call_print advice2]) ∧
  (∀ e st1, print advice1 st0 = (Raise e, st1) →
     script st = (Raise e, st1) ∧ trace st1 = trace st ++ [call_print advice1]) ∧
  (∀ st1 e st2,
     print advice1 st0 = (Return tt, st1) →
     print advice2 st1 = (Raise e, st2) →
     script st = (Raise e, st2) ∧
     trace st2 = trace st ++ [call_print advice1; call_print advice2]) ∧
  (∀ v st', script st ≠ (Return v, st')) ∧
  ((script st).1 = Exit 1 →
   trace (script st).2 = trace st ++ [call_print advice1; call_print advice2]).
Proof.
  intros Hmissing st0 advice1 advice2.
  assert (Hcheck : check_fonttools st =
            (_ ← print advice1; _ ← print advice2; sys_exit 1) st0).
  { unfold check_fonttools.
    rewrite (bind_Return _ _ _ _ _ (imported_run st)). by rewrite Hmissing. }
  assert (Hscript : script st =
            match check_fonttools st with
            | (Return _, st') => (show_configuration ≫= λ _, confirm_and_run) st'
            | (Raise e, st') => (Raise e, st')
            | (Exit c, st') => (Exit c, st')
            end) by done.
  rewrite Hscript, Hcheck. clear Hscript Hcheck.
  assert (Ht1 : trace (print advice1 st0).2 = trace st ++ [call_print advice1])
    by apply (proj1 (platform_trace (call_print advice1)
                       (console_print advice1) st0)).
  assert (Hx1 : ∀ code, (print advice1 st0).1 ≠ Exit code)
    by apply (proj2 (platform_trace (call_print advice1)
                       (console_print advice1) st0)).
  unfold mbind, M_bind, sys_exit.
  destruct (print advice1 st0) as [[[]|e1|c1] st1] eqn:Hp1; simpl in Ht1;
    [| |by destruct (Hx1 c1)].
  - assert (Ht2 : trace (print advice2 st1).2 =
                    trace st ++ [call_print advice1; call_print advice2]).
    { unfold print.
      destruct (platform_trace (call_print advice2) (console_print advice2) st1)
        as [-> _].
      by rewrite Ht1, <- app_assoc. }
    assert (Hx2 : ∀ code, (print advice2 st1).1 ≠ Exit code)
      by apply (proj2 (platform_trace (call_print advice2)
                         (console_print advice2) st1)).
    destruct (print advice2 st1) as [[[]|e2|c2] st2] eqn:Hp2; simpl in Ht2;
      [| |by destruct (Hx2 c2)].
    + split_and!.
      * intros st1' st2' [= <-] Hq. rewrite Hp2 in Hq. by injection Hq as <-.
      * done.
      * intros st1' e st2' [= <-] Hq. by rewrite Hp2 in Hq.
      * done.
      * done.
    + split_and!.
      * intros st1' st2' [= <-] Hq. by rewrite Hp2 in Hq.
      * done.
      * intros st1' e st2' [= <-] Hq. rewrite Hp2 in Hq.
        by injection Hq as <- <-.
      * done.
      * done.
  - split_and!; [done|by intros ? ? [= <- <-]|done|done|done].
Qed.

(** X21: once fontTools is imported and the configuration shown, an
    affirmative answer at the prompt hands over to [main]: the script then
    ends as [main] does, exit status included. *)
Theorem script_confirmed_runs_main `{Terminal}
    (st st1 st2 : state) (line : pystr) (w : World) :
  check_fonttools st = (Return tt, st1) →
  show_configuration st1 = (Return tt, st2) →
  console_input PROMPT (world st2) = (Typed line, w) →
  str_strip (str_lower line) ∈ AFFIRMATIVE →
  script st = main (State w (trace st2)).
Proof.
  intros Hcheck Hshow Hinput Hyes. unfold script.
  rewrite (bind_Return _ _ _ _ _ Hcheck), (bind_Return _ _ _ _ _ Hshow).
  unfold confirm_and_run.
  rewrite (bind_Return _ _ _ _ _ (input_run PROMPT st2)).
  rewrite Hinput. simpl. by rewrite bool_decide_eq_true_2.
Qed.

(** ** The program on the small platform *)

Import Demo.

Lemma validate_font_file_failures_witness :
  ∃ e st',
    validate_font_file (u"notes.txt") (start good_disk) = (Raise e, st') ∧
    UnsupportedFormatError e ∧
    exn_str e = msg_unsupported (str_lower (Path_suffix (u"notes.txt"))) ∧
    no_parse_between (start good_disk) st'.
Proof.
  apply (proj1 (proj2
           (validate_font_file_failures (u"notes.txt") (start good_disk)))).
  - vm_compute. reflexivity.
  - decide_by_computation.
Defined.

Lemma get_font_info_never_raises_witness :
  get_font_info (u"broken.TTF") (start good_disk) =
    (Return (FontInfo (u"Unknown") 0 0),
     State (DemoWorld good_disk [] []) [call_TTFont (u"broken.TTF")]).
Proof.
  eapply (proj1 (proj2 (proj2
            (get_font_info_never_raises (u"broken.TTF") (start good_disk))))).
  vm_compute. reflexivity.
Defined.

Lemma subset_font_failures_witness :
  ∃ st',
    subset_font INPUT_FONT [] KEEP_TEXT (start good_disk) =
      (Raise (Exn RuntimeError
                (u"字体裁剪失败: " ++
                 exn_str (Exn (Foreign (u"FileNotFoundError"))
                            (u"No such file or directory")))), st').
Proof.
  eexists.
  refine (proj1 (proj2 (proj2
            (subset_font_failures INPUT_FONT [] KEEP_TEXT (start good_disk))
            true _ _))
            (Exn (Foreign (u"FileNotFoundError")) (u"No such file or directory"))
            _ _).
  - vm_compute. reflexivity.
  - vm_compute. reflexivity.
Defined.

Lemma size_reduction_guarded_witness :
  report_size_reduction UNKNOWN_INFO (FontInfo (u"Demo Song") 3 1300)
    (start good_disk) = (Return tt, start good_disk).
Proof.
  apply (proj1 (size_reduction_guarded UNKNOWN_INFO
                  (FontInfo (u"Demo Song") 3 1300) (start good_disk))).
  reflexivity.
Defined.

(** An upper-case suffix passes the test of line 47: the file named
    broken.TTF is refused for its content, after an attempt to open it. *)
Example validate_upper_case_suffix :
  validate_font_file (u"broken.TTF") (start good_disk) =
    (Raise (Exn ValueError (u"无效的字体文件: Not a TrueType or OpenType font")),
     State (DemoWorld good_disk [] [])
       [call_exists (u"broken.TTF"); call_TTFont (u"broken.TTF")]).
Proof. vm_compute. reflexivity. Qed.

(** A run on a font without a name table: the original size is reported as
    0, the subsetting succeeds and no size reduction is printed. *)
Example main_on_nameless_font :
  (main (start nameless_disk)).1 = Return tt ∧
  u"  大小: 0 B" ∈ printed (main (start nameless_disk)).2 ∧
  u"✅ 字体裁剪完成!" ∈ printed (main (start nameless_disk)).2 ∧
  Forall (λ line, ¬ u"  大小减少: " `prefix_of` line)
    (printed (main (start nameless_disk)).2).
Proof. split_and!; [vm_compute; reflexivity|decide_by_computation..]. Qed.

(** A run on a well-formed font: the reduction from 5000 to 1300 bytes. *)
Example main_on_sample_font :
  (main (start good_disk)).1 = Return tt ∧
  u"  大小减少: 74.0%" ∈ printed (main (start good_disk)).2.
Proof. split; [vm_compute; reflexivity|decide_by_computation]. Qed.

(** ** More runs on the small platform *)

Lemma validate_font_file_closes_witness :
  validate_font_file INPUT_FONT (start good_disk) =
    (Return true,
     State (DemoWorld good_disk [sample_font] [])
       (trace (start good_disk) ++ validate_calls INPUT_FONT)).
Proof.
  refine (proj1 (validate_font_file_closes INPUT_FONT (start good_disk)
                   0%nat (DemoWorld good_disk [sample_font] []) _ _ _) _ _).
  - vm_compute. reflexivity.
  - decide_by_computation.
  - vm_compute. reflexivity.
  - reflexivity.
Defined.

Lemma family_name_first_match_witness :
  @family_name demo_platform
      [(0, u"(c) demo"); (1, u"Demo Song"); (1, u"Other")]
      (u"Unknown") (start good_disk) =
    @to_unicode demo_platform (1, u"Demo Song") (start good_disk).
Proof.
  apply (proj1 (@family_name_first_match demo_platform
                  [(0, u"(c) demo"); (1, u"Demo Song"); (1, u"Other")]
                  (u"Unknown") (start good_disk))
           [(0, u"(c) demo")] (1, u"Demo Song") [(1, u"Other")]).
  - reflexivity.
  - repeat constructor. simpl. lia.
  - reflexivity.
Defined.

Lemma get_font_info_char_count_nonneg_witness :
  0 ≤ info_char_count (FontInfo (u"Demo Song") 6 5000).
Proof.
  eapply (get_font_info_char_count_nonneg INPUT_FONT (start good_disk)).
  vm_compute. reflexivity.
Defined.

Lemma main_outcomes_witness :
  ∃ st1, main_try (start good_disk) = (Return tt, st1).
Proof.
  eexists.
  eapply (proj1 (main_outcomes (start good_disk))).
  vm_compute. reflexivity.
Defined.

Lemma main_missing_input_witness :
  ∃ calls,
    trace (main (start [])).2 =
      [call_print (u"🔤 TTF 字体裁剪工具"); call_print (str_mul (u"=") 50);
       call_exists INPUT_FONT] ++ calls ∧
    Forall is_print calls.
Proof.
  refine (main_missing_input (start [])
            (State (DemoWorld [] [] []) [call_print (u"🔤 TTF 字体裁剪工具")])
            (State (DemoWorld [] [] [])
               [call_print (u"🔤 TTF 字体裁剪工具");
                call_print (str_mul (u"=") 50)])
            (State (DemoWorld [] [] [])
               [call_print (u"🔤 TTF 字体裁剪工具");
                call_print (str_mul (u"=") 50); call_exists INPUT_FONT])
            _ _ _); reflexivity.
Defined.

Lemma script_prints_only_unless_confirmed_witness :
  ∃ calls,
    trace (@script demo_platform (DemoTerminal.demo_terminal true (Typed (u"n")))
             (start good_disk)).2 = trace (start good_disk) ++ calls ∧
    Forall is_print calls.
Proof.
  apply (@script_prints_only_unless_confirmed demo_platform
           (DemoTerminal.demo_terminal true (Typed (u"n"))) (start good_disk)).
  intros st1 st2 line w _ _ [= <- _]. decide_by_computation.
Defined.

Lemma script_without_fonttools_witness :
  @script demo_platform (DemoTerminal.demo_terminal false CtrlC)
      (start good_disk) =
    (Exit 1,
     State (DemoWorld good_disk [] [])
       [call_print (u"错误: 请先安装 fonttools");
        call_print (u"运行: pip install fonttools")]) ∧
  trace (State (DemoWorld good_disk [] [])
           [call_print (u"错误: 请先安装 fonttools");
            call_print (u"运行: pip install fonttools")]) =
    trace (start good_disk) ++
    [call_print (u"错误: 请先安装 fonttools");
     call_print (u"运行: pip install fonttools")].
Proof.
  refine (proj1 (@script_without_fonttools demo_platform
                   (DemoTerminal.demo_terminal false CtrlC) (start good_disk) _)
            (State (DemoWorld good_disk [] [])
               [call_print (u"错误: 请先安装 fonttools")])
            _ _ _); reflexivity.
Defined.

Lemma script_confirmed_runs_main_witness :
  @script demo_platform (DemoTerminal.demo_terminal true (Typed (u" YES ")))
    (start good_disk) =
  main (State (DemoWorld good_disk [] [])
          [call_print (u"当前配置的保留文字:"); call_print (str_mul (u"-") 30);
           call_print KEEP_TEXT; call_print (str_mul (u"-") 30); call_print []]).
Proof.
  refine (@script_confirmed_runs_main demo_platform
            (DemoTerminal.demo_terminal true (Typed (u" YES ")))
            (start good_disk) (start good_disk)
            (State (DemoWorld good_disk [] []) _) (u" YES ") _ _ _ _ _).
  - reflexivity.
  - vm_compute. reflexivity.
  - reflexivity.
  - decide_by_computation.
Defined.

(** The script on the small platform: declined, it prints and stops;
    interrupted at the prompt, it prints its farewell and returns. *)
Example script_declined_or_interrupted :
  (@script demo_platform (DemoTerminal.demo_terminal true (Typed (u"N")))
     (start good_disk)).1 = Return tt ∧
  last (printed (@script demo_platform
                   (DemoTerminal.demo_terminal true (Typed (u"N")))
                   (start good_disk)).2) =
    Some (u"已取消操作。请修改脚本中的 KEEP_TEXT 变量后重新运行。") ∧
  (@script demo_platform (DemoTerminal.demo_terminal true CtrlC)
     (start good_disk)).1 = Return tt ∧
  last (printed (@script demo_platform (DemoTerminal.demo_terminal true CtrlC)
                   (start good_disk)).2) =
    Some ([10%N] ++ u"已取消操作。").
Proof. split_and!; vm_compute; reflexivity. Qed.
